(** * The write tool, its file-system helpers and the LSP handlers

    A shallow embedding of [internal/llm/tools/write.go], of the path,
    glob and line-ending helpers of [internal/fsext/fileutil.go] and of the
    request and notification handlers of [internal/lsp], with the
    properties of the tool-execution substrate stated and proved over it.

    Go packages become modules of the same name.  Go strings are byte
    strings, modelled by [string]; [time.Time] instants are integers; an
    [error] is a value of the inductive type [error], and a nil error is
    [None]. *)

From Stdlib Require Import ZArith Ascii String List Bool Lia.
From stdpp Require Import base option strings list gmap pretty sorting.

Local Open Scope Z_scope.
Local Open Scope string_scope.
Local Open Scope list_scope.

(** ** Go's [strings] package: the functions the sources call *)

Module strings.

(** [strings.HasPrefix(s, prefix)]. *)
Definition HasPrefix (s prefix : string) : bool := String.prefix prefix s.

(** [strings.Contains(s, substr)]: [substr] starts at some position of [s]. *)
Fixpoint Contains (s substr : string) : bool :=
  match s with
  | EmptyString => String.prefix substr s
  | String _ rest => String.prefix substr s || Contains rest substr
  end.

(** [strings.TrimPrefix(s, prefix)]. *)
Definition TrimPrefix (s prefix : string) : string :=
  if String.prefix prefix s
  then String.substring (String.length prefix)
                        (String.length s - String.length prefix) s
  else s.

(** The scan of [strings.ReplaceAll] for a non-empty pattern: occurrences
    are found left to right and do not overlap.  [skip] counts the bytes
    of the occurrence just replaced that are still to be passed over. *)
Fixpoint replace_scan (old new : string) (skip : nat) (s : string) : string :=
  match s with
  | EmptyString => EmptyString
  | String c rest =>
      match skip with
      | S k => replace_scan old new k rest
      | O =>
          if String.prefix old s
          then new +:+ replace_scan old new (pred (String.length old)) rest
          else String c (replace_scan old new O rest)
      end
  end.

(** With an empty pattern Go inserts [new] at the start and after every
    UTF-8 sequence; the case is written here for one-byte characters.  The
    sources only pass the non-empty patterns LF and CR LF. *)
Fixpoint intersperse_after (new s : string) : string :=
  match s with
  | EmptyString => EmptyString
  | String c rest => String c (new +:+ intersperse_after new rest)
  end.

(** [strings.ReplaceAll(s, old, new)]. *)
Definition ReplaceAll (s old new : string) : string :=
  match old with
  | EmptyString => new +:+ intersperse_after new s
  | String _ _ => replace_scan old new O s
  end.

(** [strings.Split(s, string(sep))] and [strings.SplitSeq] for a separator of
    one byte: the pieces between the separators, an empty string giving one
    empty piece. *)
Fixpoint Split (s : string) (sep : ascii) : list string :=
  match s with
  | EmptyString => [EmptyString]
  | String c rest =>
      if Ascii.eqb c sep then EmptyString :: Split rest sep
      else match Split rest sep with
           | x :: xs => String c x :: xs
           | [] => [String c EmptyString]
           end
  end.

End strings.

(** Line feed and carriage return, written [\n] and [\r] in the Go sources. *)
Definition lf : ascii := "010"%char.
Definition cr : ascii := "013"%char.
Definition LF : string := String lf EmptyString.
Definition CR : string := String cr EmptyString.
Definition CRLF : string := CR +:+ LF.

(** Go's conversion [string(b)] of a byte: the UTF-8 encoding of the code
    point [b], one byte below 128 and two bytes from 128 on. *)
Definition string_of_byte (b : ascii) : string :=
  let n := nat_of_ascii b in
  if (n <? 128)%nat then String b EmptyString
  else String (ascii_of_nat (192 + n / 64))
         (String (ascii_of_nat (128 + n mod 64)) EmptyString).

(** [x != nil] for an optional value. *)
Definition is_Some_bool {A : Type} (x : option A) : bool :=
  match x with
  | Some _ => true
  | None => false
  end.

(** Go's [int] arithmetic, 64 bits wide: a result is taken back into the
    range of the type. *)
Definition int_wrap (z : Z) : Z := (z + 2 ^ 63) mod 2 ^ 64 - 2 ^ 63.

(** ** Errors *)

(** Go's [error] values as far as the tool tells them apart.
    [ErrorPermissionDenied] is the sentinel [permission.ErrorPermissionDenied];
    [ErrNotExist] stands for the errors on which [os.IsNotExist] answers
    true; [errors_New] is any other leaf error; [Errorf msg cause] is
    [fmt.Errorf(msg + ": %w", cause)]. *)
Inductive error : Type :=
| ErrorPermissionDenied
| ErrNotExist (msg : string)
| errors_New (msg : string)
| Errorf (msg : string) (cause : error).

(** [err.Error()].  The text of the sentinel is not part of these sources. *)
Fixpoint Error (e : error) : string :=
  match e with
  | ErrorPermissionDenied => "permission denied"
  | ErrNotExist msg => msg
  | errors_New msg => msg
  | Errorf msg cause => msg +:+ ": " +:+ Error cause
  end.

(** ** [os]: the file-system calls of the tool *)

Module os.

(** The part of [fs.FileInfo] that the tool reads. *)
Record FileInfo : Type := { IsDir : bool; ModTime : Z }.

(** [os.IsNotExist(err)]. *)
Definition IsNotExist (e : error) : bool :=
  match e with
  | ErrNotExist _ => true
  | _ => false
  end.

(** The operating system seen from the tool: [FS] is the state of the file
    system.  [Stat] and [ReadFile] only observe it. *)
Class FileSystem (FS : Type) : Type := {
  Stat : FS -> string -> FileInfo + error;
  ReadFile : FS -> string -> string + error;
  MkdirAll : FS -> string -> FS * option error;
  WriteFile : FS -> string -> string -> FS * option error;
}.

End os.

(** ** [path/filepath]: platform-dependent, hence a parameter *)

Module filepath.

(** The four functions of [path/filepath] that the tool and [fsext] call;
    [Join] is taken at two arguments, and [Rel] fails with an error. *)
Class Paths : Type := {
  IsAbs : string -> bool;
  Join : string -> string -> string;
  Dir : string -> string;
  (** [Rel basepath targpath] *)
  Rel : string -> string -> string + error;
}.

(** [filepath.Separator] (also [os.PathSeparator]), one byte on every
    platform, and [filepath.Base]. *)
Class Names : Type := {
  Separator : ascii;
  Base : string -> string;
}.

(** The values with which a [filepath.WalkFunc] of these sources returns:
    [nil], [filepath.SkipDir] and [filepath.SkipAll]. *)
Inductive WalkSignal : Type := Continue | SkipDir | SkipAll.

End filepath.

(** ** The libraries behind the glob walk *)

(** [github.com/sabhiram/go-gitignore]: [G] is a compiled ignore file. *)
Module ignore.

Class Library (FS G : Type) : Type := {
  CompileIgnoreFile : FS -> string -> G + error;
  MatchesPath : G -> string -> bool;
}.

End ignore.

(** [github.com/bmatcuk/doublestar]. *)
Module doublestar.

(** [Match(pattern, name)] answers whether the name matches, and an error
    for a malformed pattern. *)
Class Matcher : Type := {
  Match : string -> string -> bool * option error;
}.

End doublestar.

(** [github.com/charlievieth/fastwalk]. *)
Module fastwalk.

(** The part of [os.DirEntry] that the walk function reads. *)
Record DirEntry : Type := {
  IsDir : bool;
  Info : os.FileInfo + error;
}.

(** [fastwalk.Walk(&conf, root, fn)]: the walk calls [fn] with a path, its
    entry and an error, acts on the signal [fn] returns, and ends with an
    error or nil.  What [fn] keeps between calls is the state [S].  The
    library may run [fn] on several goroutines; the calls are taken here
    one after the other, as a walk with a single worker makes them. *)
Class Walker (FS : Type) : Type := {
  Walk :
    forall {S : Type},
      FS -> string ->
      (string -> DirEntry -> option error -> S -> S * filepath.WalkSignal) ->
      S -> S * option error;
}.

End fastwalk.

(** Go's [sort] package. *)
Module sort.

(** [sort.Slice(x, less)], which is not stable: any order that [less]
    admits may come out. *)
Class Sorter : Type := {
  Slice : forall {A : Type}, (A -> A -> bool) -> list A -> list A;
}.

(** What [sort.Slice] promises for the ordering [less]: the same elements,
    and no element before one that is less than it. *)
Definition sorts {A : Type} (srt : (A -> A -> bool) -> list A -> list A)
    (less : A -> A -> bool) : Prop :=
  forall l,
    Permutation (srt less l) l /\
    StronglySorted (fun a b => less b a = false) (srt less l).

End sort.

(** ** [internal/fsext] *)

Module fsext.

Section Prefix.
Context {paths : filepath.Paths}.

(** [HasPrefix]: [filepath.Rel] decides whether [path] is within
    [prefix]. *)
Definition HasPrefix (path prefix : string) : bool :=
  match filepath.Rel prefix path with
  | inr _ => false
  | inl rel => negb (strings.HasPrefix rel "..")
  end.

(** [PathOrPrefix]. *)
Definition PathOrPrefix (path prefix : string) : string :=
  if HasPrefix path prefix then prefix else path.
End Prefix.

(** [ToUnixLineEndings]. *)
Definition ToUnixLineEndings (content : string) : string * bool :=
  if strings.Contains content CRLF
  then (strings.ReplaceAll content CRLF LF, true)
  else (content, false).

(** [ToWindowsLineEndings]. *)
Definition ToWindowsLineEndings (content : string) : string * bool :=
  if negb (strings.Contains content CRLF)
  then (strings.ReplaceAll content LF CRLF, true)
  else (content, false).

(** [FileInfo]: a matched path with its modification time. *)
Record FileInfo : Type := { Path : string; ModTime : Z }.

(** [commonIgnoredDirs], the map inside [SkipHidden]; a key that is not in a
    Go map reads as [false]. *)
Definition commonIgnoredDirs : gmap string bool :=
  list_to_map
    [ (".crush", true); ("node_modules", true); ("vendor", true);
      ("dist", true); ("build", true); ("target", true); (".git", true);
      (".idea", true); (".vscode", true); ("__pycache__", true);
      ("bin", true); ("obj", true); ("out", true); ("coverage", true);
      ("logs", true); ("generated", true); ("bower_components", true);
      ("jspm_packages", true) ].

Section Hidden.
Context {names : filepath.Names}.

(** [SkipHidden]. *)
Definition SkipHidden (path : string) : bool :=
  let base := filepath.Base path in
  if negb (String.eqb base ".") && strings.HasPrefix base "." then true
  else
    existsb (fun part => default false (commonIgnoredDirs !! part))
            (strings.Split path filepath.Separator).

(** A path has a component that [commonIgnoredDirs] lists. *)
Definition has_ignored_component (path : string) : Prop :=
  exists part,
    In part (strings.Split path filepath.Separator) /\
    commonIgnoredDirs !! part = Some true.

End Hidden.

Section Trim.
Context {paths : filepath.Paths} {names : filepath.Names}.

(** The loop of [DirTrim], from index [i] down to 1, with [out] as built so
    far; [None] is the run-time panic of [dirs[i][0]] on an empty
    component. *)
Fixpoint DirTrim_loop (dirs : list string) (lim : Z) (i : nat) (out : string)
  : option string :=
  match i with
  | O => Some out
  | S i' =>
      let sep := String filepath.Separator EmptyString in
      let out := sep +:+ out in
      if (Z.of_nat i =? Z.of_nat (length dirs) - 1)%Z then
        DirTrim_loop dirs lim i' (default "" (dirs !! i))
      else if (Z.of_nat (length dirs) - lim <=? Z.of_nat i)%Z then
        match default "" (dirs !! i) with
        | EmptyString => None
        | String b _ => DirTrim_loop dirs lim i' (string_of_byte b +:+ out)
        end
      else Some ("..." +:+ out)
  end.

(** [DirTrim]; [None] when it panics. *)
Definition DirTrim (pwd : string) (lim : Z) : option string :=
  let dirs := strings.Split pwd filepath.Separator in
  if (Z.of_nat (length dirs) - 1 <? lim)%Z || (lim <=? 0)%Z then Some pwd
  else
    match DirTrim_loop dirs lim (length dirs - 1) "" with
    | Some out => Some (filepath.Join "~" out)
    | None => None
    end.

(** What [DirTrim] shows of the components when [lim] is in range: three
    dots when components are left out, the first byte of each of the last
    [lim - 1] directories, and the last component in full, each followed by
    the separator but the last. *)
Definition initials (sep : string) (l : list string) : option string :=
  fold_right
    (fun d acc =>
       match d, acc with
       | String b _, Some rest => Some (string_of_byte b +:+ sep +:+ rest)
       | _, _ => None
       end)
    (Some "") l.

Definition trimmed (dirs : list string) (lim : Z) : option string :=
  let sep := String filepath.Separator EmptyString in
  let n := length dirs in
  let m := (n - Z.to_nat lim)%nat in
  match initials sep (take (n - 1 - m) (drop m dirs)) with
  | Some shown =>
      Some ((if (1 <? m)%nat then "..." +:+ sep else "")
            +:+ shown +:+ default "" (dirs !! (n - 1)%nat))
  | None => None
  end.

End Trim.

Section Walk.
Context {FS G : Type}.
Context {fsys : os.FileSystem FS} {paths : filepath.Paths}
        {names : filepath.Names} {ign : ignore.Library FS G}
        {matcher : doublestar.Matcher} {walking : fastwalk.Walker FS}
        {sorter : sort.Sorter}.

(** [FastGlobWalker]; a nil ignore file is [None]. *)
Record FastGlobWalker : Type := {
  gitignore : option G;
  crushignore : option G;
  rootPath : string;
}.

(** [NewFastGlobWalker]. *)
Definition NewFastGlobWalker (fs : FS) (searchPath : string) : FastGlobWalker :=
  let gitignorePath := filepath.Join searchPath ".gitignore" in
  let gitignore :=
    match os.Stat fs gitignorePath with
    | inl _ =>
        match ignore.CompileIgnoreFile fs gitignorePath with
        | inl gi => Some gi
        | inr _ => None
        end
    | inr _ => None
    end in
  let crushignorePath := filepath.Join searchPath ".crushignore" in
  let crushignore :=
    match os.Stat fs crushignorePath with
    | inl _ =>
        match ignore.CompileIgnoreFile fs crushignorePath with
        | inl ci => Some ci
        | inr _ => None
        end
    | inr _ => None
    end in
  {| gitignore := gitignore; crushignore := crushignore;
     rootPath := searchPath |}.

(** [FastGlobWalker.ShouldSkip]. *)
Definition ShouldSkip (w : FastGlobWalker) (path : string) : bool :=
  if SkipHidden path then true
  else
    match filepath.Rel (rootPath w) path with
    | inr _ => false
    | inl relPath =>
        if match gitignore w with
           | Some gi => ignore.MatchesPath gi relPath
           | None => false
           end
        then true
        else if match crushignore w with
                | Some ci => ignore.MatchesPath ci relPath
                | None => false
                end
        then true
        else false
    end.

(** The walk function of [GlobWithDoubleStar], with the captured slice
    [matches] as its state. *)
Definition visit (walker : FastGlobWalker) (pattern searchPath : string)
    (limit : Z) (path : string) (d : fastwalk.DirEntry) (err : option error)
    (matches : list FileInfo) : list FileInfo * filepath.WalkSignal :=
  match err with
  | Some _ => (matches, filepath.Continue)
  | None =>
      if fastwalk.IsDir d then
        if ShouldSkip walker path then (matches, filepath.SkipDir)
        else (matches, filepath.Continue)
      else if ShouldSkip walker path then (matches, filepath.Continue)
      else
        let relPath :=
          match filepath.Rel searchPath path with
          | inl relPath => relPath
          | inr _ => path
          end in
        let '(matched, err) := doublestar.Match pattern relPath in
        if is_Some_bool err || negb matched then (matches, filepath.Continue)
        else
          match fastwalk.Info d with
          | inr _ => (matches, filepath.Continue)
          | inl info =>
              let matches :=
                matches ++ [{| Path := path; ModTime := os.ModTime info |}] in
              if (0 <? limit)%Z
                 && (int_wrap (limit * 2) <=? Z.of_nat (length matches))%Z
              then (matches, filepath.SkipAll)
              else (matches, filepath.Continue)
          end
  end.

(** The order of the results: [matches[i].ModTime.After(matches[j].ModTime)]. *)
Definition newer (a b : FileInfo) : bool := (ModTime b <? ModTime a)%Z.

(** [GlobWithDoubleStar]: the paths, whether they were truncated, and the
    error. *)
Definition GlobWithDoubleStar (fs : FS) (pattern searchPath : string)
    (limit : Z) : list string * bool * option error :=
  let walker := NewFastGlobWalker fs searchPath in
  let '(matches, err) :=
    fastwalk.Walk fs searchPath (visit walker pattern searchPath limit) [] in
  match err with
  | Some e => ([], false, Some (Errorf "fastwalk error" e))
  | None =>
      let matches := sort.Slice newer matches in
      let '(matches, truncated) :=
        if (0 <? limit)%Z && (limit <? Z.of_nat (length matches))%Z
        then (take (Z.to_nat limit) matches, true)
        else (matches, false) in
      (List.map Path matches, truncated, None)
  end.

End Walk.

End fsext.

(** ** [internal/permission]: the broker's interface *)

Module permission.

(** [CreatePermissionRequest], with [Params] at the type the write tool
    passes ([WritePermissionsParams]). *)
Record CreatePermissionRequest (A : Type) : Type := {
  SessionID : string;
  ToolCallID : string;
  ToolName : string;
  Description : string;
  Action : string;
  Params : A;
  Path : string;
}.
Arguments SessionID {A} _.
Arguments ToolCallID {A} _.
Arguments ToolName {A} _.
Arguments Description {A} _.
Arguments Action {A} _.
Arguments Params {A} _.
Arguments Path {A} _.

(** [permission.Service]: [Request] blocks until the request is resolved
    and answers whether it was granted; [P] is the broker's state. *)
Class Service (P A : Type) : Type := {
  Request : P -> CreatePermissionRequest A -> P * bool;
}.

End permission.

(** ** [internal/history]: the version store's interface *)

Module history.

(** A stored version ([history.File]), as the spec's HistoryVersion. *)
Record File : Type := {
  SessionID : string;
  Path : string;
  Content : string;
  Version : Z;
}.

(** Go's zero value [File{}], which a failed lookup returns next to its
    error. *)
Definition zero : File :=
  {| SessionID := ""; Path := ""; Content := ""; Version := 0 |}.

(** [history.Service] as the tool uses it; [H] is the store's state.  A
    lookup only observes the store. *)
Class Service (H : Type) : Type := {
  GetByPathAndSession : H -> string -> string -> File * option error;
  Create : H -> string -> string -> string -> H * (File * option error);
  CreateVersion : H -> string -> string -> string -> H * (File * option error);
}.

End history.

(** ** [internal/diff] *)

Module diff.

(** [GenerateDiff(beforeContent, afterContent, fileName)] answers the
    unified diff and the numbers of added and removed lines. *)
Class Engine : Type := {
  GenerateDiff : string -> string -> string -> string * Z * Z;
}.

End diff.

(** ** [internal/llm/tools]: the write tool *)

Module tools.

(** [ToolCall]. *)
Module ToolCall.
Record t : Type := { ID : string; Name : string; Input : string }.
End ToolCall.

(** [WriteParams], the decoded input. *)
Module WriteParams.
Record t : Type := { FilePath : string; Content : string }.
End WriteParams.

(** [WritePermissionsParams], shown to the user with the request. *)
Module WritePermissionsParams.
Record t : Type := {
  FilePath : string;
  OldContent : string;
  NewContent : string;
}.
End WritePermissionsParams.

(** [WriteResponseMetadata]. *)
Module WriteResponseMetadata.
Record t : Type := { Diff : string; Additions : Z; Removals : Z }.
End WriteResponseMetadata.

Module ToolResponse.
(** Modelled from the spec: [ToolResponse] and its constructors live in
    the tools package, outside these sources.  The response envelope is
    content, error flag and optional metadata; the metadata, JSON bytes in
    Go, is kept as the record that is serialised. *)
Record t : Type := {
  Content : string;
  IsError : bool;
  Metadata : option WriteResponseMetadata.t;
}.

(** Go's zero value [ToolResponse{}]. *)
Definition zero : t :=
  {| Content := ""; IsError := false; Metadata := None |}.
End ToolResponse.

(** Modelled from the spec: a text response, not an error, without
    metadata. *)
Definition NewTextResponse (content : string) : ToolResponse.t :=
  {| ToolResponse.Content := content;
     ToolResponse.IsError := false;
     ToolResponse.Metadata := None |}.

(** Modelled from the spec: a content error, that is a text response with
    [IsError] set. *)
Definition NewTextErrorResponse (content : string) : ToolResponse.t :=
  {| ToolResponse.Content := content;
     ToolResponse.IsError := true;
     ToolResponse.Metadata := None |}.

(** Modelled from the spec: the response with the metadata attached. *)
Definition WithResponseMetadata (response : ToolResponse.t)
    (metadata : WriteResponseMetadata.t) : ToolResponse.t :=
  {| ToolResponse.Content := ToolResponse.Content response;
     ToolResponse.IsError := ToolResponse.IsError response;
     ToolResponse.Metadata := Some metadata |}.

Module Context.
(** Modelled from the spec: the ambient call context, of which the tool
    reads the session and message identifiers; either may be missing. *)
Record t : Type := {
  SessionID : option string;
  MessageID : option string;
}.
End Context.

(** Modelled from the spec: [GetContextValues] is outside these sources; it
    answers the two identifiers, a missing one as the empty string. *)
Definition GetContextValues (ctx : Context.t) : string * string :=
  (default "" (Context.SessionID ctx), default "" (Context.MessageID ctx)).

(** [WriteToolName]. *)
Definition WriteToolName : string := "write".

(** [writeTool]: the services it holds by reference have their state in
    the [World] below; the struct itself keeps the working directory. *)
Record writeTool : Type := { workingDir : string }.

(** [modTime.After(lastRead)]. *)
Definition After (t u : Z) : bool := (u <? t)%Z.

(** The file-state tracker of the tools package ([getLastReadTime],
    [recordFileWrite], [recordFileRead]); [T] is the tracker's state, clock
    included. *)
Class FileTracker (T : Type) : Type := {
  getLastReadTime : T -> string -> Z;
  recordFileWrite : T -> string -> T;
  recordFileRead : T -> string -> T;
}.

(** The diagnostics helpers of the tools package over the [lspClients]
    map, whose state is [L]. *)
Class Diagnostics (L : Type) : Type := {
  waitForLspDiagnostics : L -> string -> L;
  getDiagnostics : L -> string -> string;
}.

(** Standard-library functions taken as parameters: [json.Unmarshal] into
    a [WriteParams] and [t.Format(time.RFC3339)]. *)
Class Runtime : Type := {
  json_Unmarshal : string -> WriteParams.t + error;
  Format_RFC3339 : Z -> string;
}.

(** The requests of the write tool. *)
Abbreviation PermissionRequest :=
  (permission.CreatePermissionRequest WritePermissionsParams.t).

(** What a call does to the world outside, in order.  Observations
    ([Stat], [ReadFile], the tracker and history lookups) leave no event. *)
Inductive Event : Type :=
| MadeDirs (dir : string) (err : option error)
| Requested (req : PermissionRequest) (granted : bool)
| WroteFile (path content : string) (err : option error)
| HistoryCreate (sessionID path content : string) (err : option error)
| HistoryCreateVersion (sessionID path content : string) (err : option error)
| SlogDebug (msg : string) (err : error)
| RecordedWrite (path : string)
| RecordedRead (path : string)
| WaitedForDiagnostics (path : string).

(** How a statement ends: control goes on with a value, or the function
    has returned. *)
Inductive Flow (A : Type) : Type :=
| Next (a : A)
| Return (response : ToolResponse.t) (err : option error).
Arguments Next {A} a.
Arguments Return {A} response err.

Section WriteTool.
Context {FS T H P L : Type}.
Context {fsys : os.FileSystem FS} {paths : filepath.Paths}
        {tracker : FileTracker T} {hist : history.Service H}
        {broker : permission.Service P WritePermissionsParams.t}
        {diags : Diagnostics L} {differ : diff.Engine} {rt : Runtime}.

(** Everything outside the call that [Run] reads or changes. *)
Record World : Type := {
  fs : FS;
  fileRecords : T;
  files : H;
  permissions : P;
  lspClients : L;
}.

(** Field updates. *)
Definition with_fs (w : World) (x : FS) : World :=
  {| fs := x; fileRecords := fileRecords w; files := files w;
     permissions := permissions w; lspClients := lspClients w |}.
Definition with_fileRecords (w : World) (x : T) : World :=
  {| fs := fs w; fileRecords := x; files := files w;
     permissions := permissions w; lspClients := lspClients w |}.
Definition with_files (w : World) (x : H) : World :=
  {| fs := fs w; fileRecords := fileRecords w; files := x;
     permissions := permissions w; lspClients := lspClients w |}.
Definition with_permissions (w : World) (x : P) : World :=
  {| fs := fs w; fileRecords := fileRecords w; files := files w;
     permissions := x; lspClients := lspClients w |}.
Definition with_lspClients (w : World) (x : L) : World :=
  {| fs := fs w; fileRecords := fileRecords w; files := files w;
     permissions := permissions w; lspClients := x |}.

(** Statements of the function body: they read and change the world,
    leave events, and may return early. *)
Definition Stmt (A : Type) : Type := World -> Flow A * World * list Event.

(** A statement that only yields a value. *)
Definition pure {A} (a : A) : Stmt A := fun w => (Next a, w, []).

(** [return response, err]. *)
Definition ret {A} (response : ToolResponse.t) (err : option error) : Stmt A :=
  fun w => (Return response err, w, []).

(** Sequencing: what follows a statement runs unless the statement
    returned; the events accumulate in order. *)
Definition bind {A B} (m : Stmt A) (k : A -> Stmt B) : Stmt B :=
  fun w =>
    match m w with
    | (Next a, w1, ev1) =>
        match k a w1 with
        | (r, w2, ev2) => (r, w2, ev1 ++ ev2)
        end
    | (Return response err, w1, ev1) => (Return response err, w1, ev1)
    end.

(** Reading the world. *)
Definition observe {A} (f : World -> A) : Stmt A :=
  fun w => (Next (f w), w, []).

Notation "'let*' x ':=' m 'in' k" := (bind m (fun x => k))
  (at level 10, x pattern, m at level 100, k at level 200, only parsing).

(** The calls on the world, one statement each. *)

Definition os_Stat (name : string) : Stmt (os.FileInfo + error) :=
  observe (fun w => os.Stat (fs w) name).

Definition os_ReadFile (name : string) : Stmt (string + error) :=
  observe (fun w => os.ReadFile (fs w) name).

Definition os_MkdirAll (path : string) : Stmt (option error) :=
  fun w =>
    let '(x, err) := os.MkdirAll (fs w) path in
    (Next err, with_fs w x, [MadeDirs path err]).

Definition os_WriteFile (name data : string) : Stmt (option error) :=
  fun w =>
    let '(x, err) := os.WriteFile (fs w) name data in
    (Next err, with_fs w x, [WroteFile name data err]).

Definition lastReadTime (path : string) : Stmt Z :=
  observe (fun w => getLastReadTime (fileRecords w) path).

Definition recordWrite (path : string) : Stmt unit :=
  fun w =>
    (Next tt, with_fileRecords w (recordFileWrite (fileRecords w) path),
     [RecordedWrite path]).

Definition recordRead (path : string) : Stmt unit :=
  fun w =>
    (Next tt, with_fileRecords w (recordFileRead (fileRecords w) path),
     [RecordedRead path]).

Definition permissions_Request (req : PermissionRequest) : Stmt bool :=
  fun w =>
    let '(x, granted) := permission.Request (permissions w) req in
    (Next granted, with_permissions w x, [Requested req granted]).

Definition files_GetByPathAndSession (path sessionID : string)
  : Stmt (history.File * option error) :=
  observe (fun w => history.GetByPathAndSession (files w) path sessionID).

Definition files_Create (sessionID path content : string)
  : Stmt (history.File * option error) :=
  fun w =>
    let '(x, r) := history.Create (files w) sessionID path content in
    (Next r, with_files w x, [HistoryCreate sessionID path content (snd r)]).

Definition files_CreateVersion (sessionID path content : string)
  : Stmt (history.File * option error) :=
  fun w =>
    let '(x, r) := history.CreateVersion (files w) sessionID path content in
    (Next r, with_files w x,
     [HistoryCreateVersion sessionID path content (snd r)]).

Definition slog_Debug (msg : string) (err : error) : Stmt unit :=
  fun w => (Next tt, w, [SlogDebug msg err]).

Definition waitForDiagnostics (path : string) : Stmt unit :=
  fun w =>
    (Next tt,
     with_lspClients w (waitForLspDiagnostics (lspClients w) path),
     [WaitedForDiagnostics path]).

Definition diagnosticsOf (path : string) : Stmt string :=
  observe (fun w => getDiagnostics (lspClients w) path).

(** The path the call works on: [params.FilePath], joined to the
    working directory when it is relative. *)
Definition resolve (w : writeTool) (path : string) : string :=
  if negb (filepath.IsAbs path)
  then filepath.Join (workingDir w) path
  else path.

(** The body of [writeTool.Run], statement by statement. *)
Definition body (w : writeTool) (ctx : Context.t) (call : ToolCall.t)
  : Stmt Empty_set :=
  match json_Unmarshal (ToolCall.Input call) with
  | inr err =>
      ret (NewTextErrorResponse
             ("error parsing parameters: " +:+ Error err)) None
  | inl params =>
  if String.eqb (WriteParams.FilePath params) "" then
    ret (NewTextErrorResponse "file_path is required") None
  else
  if String.eqb (WriteParams.Content params) "" then
    ret (NewTextErrorResponse "content is required") None
  else
  let filePath := resolve w (WriteParams.FilePath params) in
  let* st := os_Stat filePath in
  let* _ :=
    match st with
    | inl fileInfo =>
        if os.IsDir fileInfo then
          ret (NewTextErrorResponse
                 ("Path is a directory, not a file: " +:+ filePath))
              None
        else
        let modTime := os.ModTime fileInfo in
        let* lastRead := lastReadTime filePath in
        if After modTime lastRead then
          ret (NewTextErrorResponse
                 ("File " +:+ filePath
                  +:+ " has been modified since it was last read."
                  +:+ LF +:+ "Last modification: "
                  +:+ Format_RFC3339 modTime
                  +:+ LF +:+ "Last read: " +:+ Format_RFC3339 lastRead
                  +:+ LF +:+ LF
                  +:+ "Please read the file again before modifying it."))
              None
        else
        let* rd := os_ReadFile filePath in
        match rd with
        | inl oldContent =>
            if String.eqb oldContent (WriteParams.Content params) then
              ret (NewTextErrorResponse
                     ("File " +:+ filePath
                      +:+ " already contains the exact content. No changes made."))
                  None
            else pure tt
        | inr _ => pure tt
        end
    | inr err =>
        if negb (os.IsNotExist err) then
          ret ToolResponse.zero (Some (Errorf "error checking file" err))
        else pure tt
    end in
  let dir := filepath.Dir filePath in
  let* err := os_MkdirAll dir in
  let* _ :=
    match err with
    | Some e =>
        ret ToolResponse.zero (Some (Errorf "error creating directory" e))
    | None => pure tt
    end in
  let* oldContent :=
    match st with
    | inl fileInfo =>
        if negb (os.IsDir fileInfo) then
          let* rd := os_ReadFile filePath in
          match rd with
          | inl oldBytes => pure oldBytes
          | inr _ => pure ""
          end
        else pure ""
    | inr _ => pure ""
    end in
  let '(sessionID, messageID) := GetContextValues ctx in
  if String.eqb sessionID "" || String.eqb messageID "" then
    ret ToolResponse.zero
        (Some (errors_New "session_id and message_id are required"))
  else
  let '(diff, additions, removals) :=
    diff.GenerateDiff oldContent (WriteParams.Content params)
                      (strings.TrimPrefix filePath (workingDir w)) in
  let* p :=
    permissions_Request
      {| permission.SessionID := sessionID;
         permission.Path := fsext.PathOrPrefix filePath (workingDir w);
         permission.ToolCallID := ToolCall.ID call;
         permission.ToolName := WriteToolName;
         permission.Action := "write";
         permission.Description := "Create file " +:+ filePath;
         permission.Params :=
           {| WritePermissionsParams.FilePath := filePath;
              WritePermissionsParams.OldContent := oldContent;
              WritePermissionsParams.NewContent :=
                WriteParams.Content params |} |} in
  if negb p then ret ToolResponse.zero (Some ErrorPermissionDenied) else
  let* err := os_WriteFile filePath (WriteParams.Content params) in
  let* _ :=
    match err with
    | Some e =>
        ret ToolResponse.zero (Some (Errorf "error writing file" e))
    | None => pure tt
    end in
  let* (file, err) := files_GetByPathAndSession filePath sessionID in
  let* _ :=
    match err with
    | Some _ =>
        let* (_, err) := files_Create sessionID filePath oldContent in
        match err with
        | Some e =>
            ret ToolResponse.zero
                (Some (Errorf "error creating file history" e))
        | None => pure tt
        end
    | None => pure tt
    end in
  let* _ :=
    if negb (String.eqb (history.Content file) oldContent) then
      let* (_, err) := files_CreateVersion sessionID filePath oldContent in
      match err with
      | Some e => slog_Debug "Error creating file history version" e
      | None => pure tt
      end
    else pure tt in
  let* (_, err) :=
    files_CreateVersion sessionID filePath (WriteParams.Content params) in
  let* _ :=
    match err with
    | Some e => slog_Debug "Error creating file history version" e
    | None => pure tt
    end in
  let* _ := recordWrite filePath in
  let* _ := recordRead filePath in
  let* _ := waitForDiagnostics filePath in
  let result := "File successfully written: " +:+ filePath in
  let result := "<result>" +:+ LF +:+ result +:+ LF +:+ "</result>" in
  let* diagnostics := diagnosticsOf filePath in
  let result := result +:+ diagnostics in
  ret (WithResponseMetadata (NewTextResponse result)
         {| WriteResponseMetadata.Diff := diff;
            WriteResponseMetadata.Additions := additions;
            WriteResponseMetadata.Removals := removals |})
      None
  end.

(** [writeTool.Run]: the response, the error, the world afterwards and
    the events of the call. *)
Definition Run (w : writeTool) (ctx : Context.t) (call : ToolCall.t)
    (world : World)
  : ToolResponse.t * option error * World * list Event :=
  match body w ctx call world with
  | (Return response err, world', events) => (response, err, world', events)
  | (Next impossible, _, _) => match impossible with end
  end.

(** What [Run] captures as [oldContent] before it asks for permission:
    the target as read once its parent directories are made, when the
    target was a regular file at entry, and the empty string when it was
    absent or could not be read. *)
Definition capturedContent (world : World) (filePath : string) : string :=
  match os.Stat (fs world) filePath with
  | inl fileInfo =>
      if negb (os.IsDir fileInfo) then
        match os.ReadFile
                (fst (os.MkdirAll (fs world) (filepath.Dir filePath)))
                filePath with
        | inl oldBytes => oldBytes
        | inr _ => ""
        end
      else ""
  | inr _ => ""
  end.

(** The text of a successful answer before the diagnostics. *)
Definition writtenMessage (filePath : string) : string :=
  "<result>" +:+ LF +:+ ("File successfully written: " +:+ filePath)
  +:+ LF +:+ "</result>".

End WriteTool.

End tools.

(** ** [internal/lsp]: the handlers of server requests and notifications *)

(** The types of [internal/lsp/protocol] that the handlers read, as far as
    they read them. *)
Module protocol.

(** [Registration]; [RegisterOptions] has the type [any], here [O]. *)
Record Registration (O : Type) : Type := {
  ID : string;
  Method : string;
  RegisterOptions : O;
}.
Arguments ID {O} _.
Arguments Method {O} _.
Arguments RegisterOptions {O} _.

(** [ApplyWorkspaceEditResult]. *)
Record ApplyWorkspaceEditResult : Type := {
  Applied : bool;
  FailureReason : string;
}.

(** [PublishDiagnosticsParams], with diagnostics of type [D]. *)
Record PublishDiagnosticsParams (D : Type) : Type := {
  URI : string;
  Diagnostics : list D;
}.
Arguments URI {D} _.
Arguments Diagnostics {D} _.

End protocol.

Module lsp.

(** A record of [slog.Error]. *)
Inductive LogRecord : Type := SlogError (msg : string) (err : error).

Section Handlers.
(** [O]: registration options; [W]: file-system watchers; [E]: workspace
    edits; [D]: diagnostics; [FS]: the file system that edits change; [S]:
    the state of the application that the callbacks act on. *)
Context {O W E D FS S : Type}.

(** The JSON calls of the handlers and [util.ApplyWorkspaceEdit], taken as
    parameters. *)
Class Codec : Type := {
  unmarshal_RegistrationParams : string -> list (protocol.Registration O) + error;
  marshal_RegisterOptions : O -> string + error;
  unmarshal_WatchedFilesOptions : string -> list W + error;
  unmarshal_ApplyWorkspaceEditParams : string -> E + error;
  unmarshal_PublishDiagnosticsParams :
    string -> protocol.PublishDiagnosticsParams D + error;
  ApplyWorkspaceEdit : FS -> E -> FS * option error;
}.
Context {codec : Codec}.

(** [FileWatchRegistrationHandler]: a function called for its effect on the
    application. *)
Definition FileWatchRegistrationHandler : Type := string -> list W -> S -> S.

(** What the handlers work on: the package variable [fileWatchHandler], the
    application and the log. *)
Record Env : Type := {
  fileWatchHandler : option FileWatchRegistrationHandler;
  app : S;
  log : list LogRecord;
}.

Definition with_app (env : Env) (x : S) : Env :=
  {| fileWatchHandler := fileWatchHandler env; app := x; log := log env |}.

Definition slog_Error (env : Env) (msg : string) (err : error) : Env :=
  {| fileWatchHandler := fileWatchHandler env; app := app env;
     log := log env ++ [SlogError msg err] |}.

(** [RegisterFileWatchHandler]; the handler may be nil. *)
Definition RegisterFileWatchHandler
    (handler : option FileWatchRegistrationHandler) (env : Env) : Env :=
  {| fileWatchHandler := handler; app := app env; log := log env |}.

(** [notifyFileWatchRegistration]. *)
Definition notifyFileWatchRegistration (id : string) (watchers : list W)
    (env : Env) : Env :=
  match fileWatchHandler env with
  | Some handler => with_app env (handler id watchers (app env))
  | None => env
  end.

(** The loop of [HandleRegisterCapability] over the registrations. *)
Fixpoint registrations_loop (regs : list (protocol.Registration O)) (env : Env)
  : Env :=
  match regs with
  | [] => env
  | reg :: rest =>
      if String.eqb (protocol.Method reg) "workspace/didChangeWatchedFiles"
      then
        match marshal_RegisterOptions (protocol.RegisterOptions reg) with
        | inr err =>
            registrations_loop rest
              (slog_Error env "Error marshaling registration options" err)
        | inl optionsJSON =>
            match unmarshal_WatchedFilesOptions optionsJSON with
            | inr err =>
                registrations_loop rest
                  (slog_Error env "Error unmarshaling registration options"
                     err)
            | inl watchers =>
                registrations_loop rest
                  (notifyFileWatchRegistration (protocol.ID reg) watchers env)
            end
        end
      else registrations_loop rest env
  end.

(** The registrations that reach the handler: those for watched files
    whose options pass through JSON, each with its watchers. *)
Definition watched (regs : list (protocol.Registration O))
  : list (string * list W) :=
  omap
    (fun reg =>
       if String.eqb (protocol.Method reg) "workspace/didChangeWatchedFiles"
       then
         match marshal_RegisterOptions (protocol.RegisterOptions reg) with
         | inl optionsJSON =>
             match unmarshal_WatchedFilesOptions optionsJSON with
             | inl watchers => Some (protocol.ID reg, watchers)
             | inr _ => None
             end
         | inr _ => None
         end
       else None)
    regs.

(** [HandleRegisterCapability]: the error it returns (its result is always
    nil) and the environment afterwards. *)
Definition HandleRegisterCapability (params : string) (env : Env)
  : option error * Env :=
  match unmarshal_RegistrationParams params with
  | inr err =>
      (Some err, slog_Error env "Error unmarshaling registration params" err)
  | inl registrations => (None, registrations_loop registrations env)
  end.

(** [HandleApplyEdit]: the result, the error, the file system and the log
    afterwards. *)
Definition HandleApplyEdit (params : string) (fs : FS) (logs : list LogRecord)
  : option protocol.ApplyWorkspaceEditResult * option error
    * FS * list LogRecord :=
  match unmarshal_ApplyWorkspaceEditParams params with
  | inr err => (None, Some err, fs, logs)
  | inl edit =>
      match ApplyWorkspaceEdit fs edit with
      | (fs', Some err) =>
          (Some {| protocol.Applied := false;
                   protocol.FailureReason := Error err |},
           None, fs',
           logs ++ [SlogError "Error applying workspace edit" err])
      | (fs', None) =>
          (Some {| protocol.Applied := true; protocol.FailureReason := "" |},
           None, fs', logs)
      end
  end.

(** The fields of [Client] that [HandleDiagnostics] uses; the callback acts
    on the application. *)
Record Client : Type := {
  name : string;
  diagnostics : gmap string (list D);
  onDiagnosticsChanged : option (string -> Z -> S -> S);
}.

(** The loop that adds up the diagnostics of every URI. *)
Definition totalCount (m : gmap string (list D)) : Z :=
  map_fold (fun _ ds total => (total + Z.of_nat (length ds))%Z) 0%Z m.

(** [HandleDiagnostics]: the client, the application and the log
    afterwards. *)
Definition HandleDiagnostics (client : Client) (params : string)
    (st : S) (logs : list LogRecord) : Client * S * list LogRecord :=
  match unmarshal_PublishDiagnosticsParams params with
  | inr err =>
      (client, st,
       logs ++ [SlogError "Error unmarshaling diagnostics params" err])
  | inl diagParams =>
      let diagnostics' :=
        <[protocol.URI diagParams := protocol.Diagnostics diagParams]>
          (diagnostics client) in
      let total := totalCount diagnostics' in
      let client' :=
        {| name := name client; diagnostics := diagnostics';
           onDiagnosticsChanged := onDiagnosticsChanged client |} in
      match onDiagnosticsChanged client with
      | Some callback => (client', callback (name client) total st, logs)
      | None => (client', st, logs)
      end
  end.

End Handlers.

End lsp.

(** * Executable collaborators

    The interfaces above are parameters of [Run].  To run the tool on
    concrete calls they are instantiated here by small in-memory
    implementations: a slash-separated path library, a file system, the
    file-state tracker, the history store, the permission broker and a
    diagnostics table. *)

(** ** Slash-separated paths, for clean paths as Unix writes them *)

Module unixpath.

Definition slash : ascii := "/"%char.

(** The components between slashes: ["/w/a"] gives [""; "w"; "a"]. *)
Fixpoint components (s : string) : list string :=
  match s with
  | EmptyString => [EmptyString]
  | String c rest =>
      if Ascii.eqb c slash then EmptyString :: components rest
      else match components rest with
           | x :: xs => String c x :: xs
           | [] => [String c EmptyString]
           end
  end.

Fixpoint join (l : list string) : string :=
  match l with
  | [] => ""
  | [x] => x
  | x :: rest => x +:+ "/" +:+ join rest
  end.

(** The path named by a list of components; the root is ["/"]. *)
Definition of_components (l : list string) : string :=
  match l with
  | [EmptyString] => "/"
  | _ => join l
  end.

Definition IsAbs (p : string) : bool := String.prefix "/" p.

Definition Join (a b : string) : string :=
  if String.eqb a "" then b
  else if String.eqb b "" then a
  else a +:+ "/" +:+ b.

Definition Dir (p : string) : string :=
  match removelast (components p) with
  | [] => "."
  | l => of_components l
  end.

Fixpoint strip_common (a b : list string) : list string * list string :=
  match a, b with
  | x :: a', y :: b' =>
      if String.eqb x y then strip_common a' b' else (a, b)
  | _, _ => (a, b)
  end.

Definition Rel (basepath targpath : string) : string + error :=
  if Bool.eqb (IsAbs basepath) (IsAbs targpath) then
    let '(up, down) :=
      strip_common (components basepath) (components targpath) in
    match List.map (fun _ => "..") up ++ down with
    | [] => inl "."
    | l => inl (join l)
    end
  else
    inr (errors_New ("Rel: can't make " +:+ targpath
                     +:+ " relative to " +:+ basepath)).

Definition paths : filepath.Paths :=
  {| filepath.IsAbs := IsAbs; filepath.Join := Join;
     filepath.Dir := Dir; filepath.Rel := Rel |}.

(** Every ancestor directory of [p], root first, [p] itself last. *)
Fixpoint prefixes_from (acc l : list string) : list (list string) :=
  match l with
  | [] => []
  | x :: rest => (acc ++ [x]) :: prefixes_from (acc ++ [x]) rest
  end.

Definition ancestors (p : string) : list string :=
  List.map of_components (prefixes_from [] (components p)).

End unixpath.

(** ** An in-memory file system *)

Module memfs.

Inductive Node : Type :=
| RegularFile (content : string) (mtime : Z)
| Directory (mtime : Z).

(** The tree, keyed by absolute path, and the clock that stamps changes. *)
Record t : Type := { nodes : gmap string Node; clock : Z }.

Definition Stat (fs : t) (name : string) : os.FileInfo + error :=
  match nodes fs !! name with
  | Some (RegularFile _ mtime) =>
      inl {| os.IsDir := false; os.ModTime := mtime |}
  | Some (Directory mtime) =>
      inl {| os.IsDir := true; os.ModTime := mtime |}
  | None =>
      inr (ErrNotExist ("stat " +:+ name +:+ ": no such file or directory"))
  end.

Definition ReadFile (fs : t) (name : string) : string + error :=
  match nodes fs !! name with
  | Some (RegularFile content _) => inl content
  | Some (Directory _) =>
      inr (errors_New ("read " +:+ name +:+ ": is a directory"))
  | None =>
      inr (ErrNotExist ("open " +:+ name +:+ ": no such file or directory"))
  end.

Definition touch (fs : t) (name : string) (n : Node) : t :=
  {| nodes := <[name := n]> (nodes fs); clock := clock fs + 1 |}.

Fixpoint mkdirs (dirs : list string) (fs : t) : t * option error :=
  match dirs with
  | [] => (fs, None)
  | d :: rest =>
      match nodes fs !! d with
      | Some (Directory _) => mkdirs rest fs
      | Some (RegularFile _ _) =>
          (fs, Some (errors_New ("mkdir " +:+ d +:+ ": not a directory")))
      | None => mkdirs rest (touch fs d (Directory (clock fs)))
      end
  end.

Definition MkdirAll (fs : t) (path : string) : t * option error :=
  mkdirs (unixpath.ancestors path) fs.

Definition WriteFile (fs : t) (name data : string) : t * option error :=
  match nodes fs !! name with
  | Some (Directory _) =>
      (fs, Some (errors_New ("open " +:+ name +:+ ": is a directory")))
  | _ =>
      match nodes fs !! unixpath.Dir name with
      | Some (Directory _) =>
          (touch fs name (RegularFile data (clock fs)), None)
      | _ =>
          (fs, Some (ErrNotExist
                       ("open " +:+ name +:+ ": no such file or directory")))
      end
  end.

#[global] Instance fileSystem : os.FileSystem t :=
  {| os.Stat := Stat; os.ReadFile := ReadFile;
     os.MkdirAll := MkdirAll; os.WriteFile := WriteFile |}.

End memfs.

(** ** The file-state tracker *)

Module filetracker.

(** Modelled from the spec: the tracker of the tools package is outside
    these sources.  It keeps a last-read and a last-write time per path;
    a path never read answers the zero time. *)
Record t : Type := {
  readTime : gmap string Z;
  writeTime : gmap string Z;
  now : Z;
}.

Definition getLastReadTime (tr : t) (path : string) : Z :=
  default 0 (readTime tr !! path).

Definition recordFileWrite (tr : t) (path : string) : t :=
  {| readTime := readTime tr;
     writeTime := <[path := now tr]> (writeTime tr);
     now := now tr + 1 |}.

Definition recordFileRead (tr : t) (path : string) : t :=
  {| readTime := <[path := now tr]> (readTime tr);
     writeTime := writeTime tr;
     now := now tr + 1 |}.

#[global] Instance fileTracker : tools.FileTracker t :=
  {| tools.getLastReadTime := getLastReadTime;
     tools.recordFileWrite := recordFileWrite;
     tools.recordFileRead := recordFileRead |}.

End filetracker.

(** ** The history store *)

Module memhistory.

(** Modelled from the spec: the history store ([internal/history]) is
    outside these sources.  It is a session-scoped, append-only store of
    versions keyed by session and path; versions are ordered by a counter
    per key; a lookup answers the latest version of the key or fails, in
    which case Go hands back the zero [File] with the error.  Writes may
    fail: [failures] schedules the outcome of the coming writes, [true]
    for a write that fails and leaves the versions as they are; with the
    schedule used up, writes succeed. *)
Record t : Type := {
  versions : list history.File;
  failures : list bool;
}.

Definition is_for (sessionID path : string) (f : history.File) : bool :=
  String.eqb (history.SessionID f) sessionID
  && String.eqb (history.Path f) path.

(** The versions of one key, oldest first. *)
Definition versions_of (h : t) (sessionID path : string) : list history.File :=
  List.filter (is_for sessionID path) (versions h).

(** The contents of the versions of one key, oldest first. *)
Definition contents_of (h : t) (sessionID path : string) : list string :=
  List.map history.Content (versions_of h sessionID path).

Definition GetByPathAndSession (h : t) (path sessionID : string)
  : history.File * option error :=
  match List.last (List.map Some (versions_of h sessionID path)) None with
  | Some f => (f, None)
  | None => (history.zero, Some (errors_New "sql: no rows in result set"))
  end.

Definition next (h : t) (sessionID path content : string) : history.File :=
  {| history.SessionID := sessionID;
     history.Path := path;
     history.Content := content;
     history.Version := Z.of_nat (length (versions_of h sessionID path)) |}.

(** One write: it fails as scheduled, or appends the next version of the
    key. *)
Definition append (h : t) (sessionID path content : string)
  : t * (history.File * option error) :=
  match failures h with
  | true :: rest =>
      ({| versions := versions h; failures := rest |},
       (history.zero, Some (errors_New "database is locked")))
  | _ =>
      let f := next h sessionID path content in
      ({| versions := versions h ++ [f]; failures := tail (failures h) |},
       (f, None))
  end.

(** [create] stores the first version, [createVersion] a further one. *)
Definition Create := append.
Definition CreateVersion := append.

#[global] Instance service : history.Service t :=
  {| history.GetByPathAndSession := GetByPathAndSession;
     history.Create := Create;
     history.CreateVersion := CreateVersion |}.

End memhistory.

(** ** The permission broker *)

Module broker.

Inductive Answer : Type := deny | allow_once | allow_session.

(** Modelled from the spec: the permission broker
    ([internal/permission]) is outside these sources.  A decision
    remembered for the same session, path and action answers at once;
    otherwise the request goes to the user, whose answers are scripted in
    [answers]; an unanswered request (a cancelled context) is denied. *)
Record t : Type := {
  sessionPermissions : list (string * string * string);
  answers : list Answer;
}.

Definition same_scope (a b : string * string * string) : bool :=
  let '(s1, p1, a1) := a in
  let '(s2, p2, a2) := b in
  String.eqb s1 s2 && String.eqb p1 p2 && String.eqb a1 a2.

Definition Request {A : Type} (b : t)
    (req : permission.CreatePermissionRequest A) : t * bool :=
  let scope :=
    (permission.SessionID req, permission.Path req, permission.Action req) in
  if existsb (same_scope scope) (sessionPermissions b) then (b, true)
  else
    match answers b with
    | [] => (b, false)
    | deny :: rest =>
        ({| sessionPermissions := sessionPermissions b; answers := rest |},
         false)
    | allow_once :: rest =>
        ({| sessionPermissions := sessionPermissions b; answers := rest |},
         true)
    | allow_session :: rest =>
        ({| sessionPermissions := scope :: sessionPermissions b;
            answers := rest |},
         true)
    end.

#[global] Instance service {A : Type} : permission.Service t A :=
  {| permission.Request := Request |}.

End broker.

(** ** Diagnostics, the diff engine and the decoder *)

Module doubles.

(** Modelled from the spec: the diagnostics helpers of the tools package
    are outside these sources.  A table of diagnostics per path stands for
    the language servers: waiting changes nothing, and collecting reads the
    table. *)
Record lsp : Type := { reports : gmap string string }.

#[global] Instance diagnostics : tools.Diagnostics lsp :=
  {| tools.waitForLspDiagnostics l _ := l;
     tools.getDiagnostics l path := default "" (reports l !! path) |}.

(** The lines of a text; a final line feed ends the last line. *)
Fixpoint lines (s : string) : list string :=
  match s with
  | EmptyString => []
  | String c rest =>
      if Ascii.eqb c "010"%char then EmptyString :: lines rest
      else match lines rest with
           | x :: xs => String c x :: xs
           | [] => [String c EmptyString]
           end
  end.

Definition marked (mark : string) (l : list string) : string :=
  fold_right (fun x acc => mark +:+ x +:+ LF +:+ acc) "" l.

(** Modelled from the spec: the diff engine ([internal/diff]) is outside
    these sources.  Identical texts give the empty diff and zero counts;
    otherwise this whole-file diff removes every old line and adds every
    new one, so that an empty old text gives an all-added diff. *)
Definition GenerateDiff (beforeContent afterContent fileName : string)
  : string * Z * Z :=
  if String.eqb beforeContent afterContent then ("", 0, 0)
  else
    ("--- a/" +:+ fileName +:+ LF +:+ "+++ b/" +:+ fileName +:+ LF
     +:+ marked "-" (lines beforeContent)
     +:+ marked "+" (lines afterContent),
     Z.of_nat (length (lines afterContent)),
     Z.of_nat (length (lines beforeContent))).

Definition differ : diff.Engine := {| diff.GenerateDiff := GenerateDiff |}.

(** A decoder that knows the listed inputs and rejects every other one. *)
Fixpoint decode (table : list (string * tools.WriteParams.t)) (input : string)
  : tools.WriteParams.t + error :=
  match table with
  | [] => inr (errors_New "unexpected end of JSON input")
  | (known, params) :: rest =>
      if String.eqb known input then inl params else decode rest input
  end.

Definition runtime (table : list (string * tools.WriteParams.t))
  : tools.Runtime :=
  {| tools.json_Unmarshal := decode table;
     tools.Format_RFC3339 t := "T" +:+ pretty t |}.

End doubles.

(** ** Base names of slash-separated paths *)

Module unixnames.

(** [filepath.Base] on Unix: the last element of the path, trailing
    slashes set aside; the dot for the empty path and the slash for a path
    of slashes only. *)
Definition Base (p : string) : string :=
  match List.filter (fun c => negb (String.eqb c "")) (unixpath.components p)
  with
  | [] => if String.eqb p "" then "." else "/"
  | x :: l => List.last l x
  end.

Definition names : filepath.Names :=
  {| filepath.Separator := unixpath.slash; filepath.Base := Base |}.

End unixnames.

(** ** A file system that refuses *)

Module guardedfs.

(** A tree with the paths whose [Stat] and [ReadFile] are refused, as for
    want of a permission, and a switch that makes the whole tree
    read-only. *)
Record t : Type := {
  tree : memfs.t;
  sealed : list string;
  readonly : bool;
}.

Definition refused (fs : t) (name : string) : bool :=
  existsb (String.eqb name) (sealed fs).

Definition Stat (fs : t) (name : string) : os.FileInfo + error :=
  if refused fs name
  then inr (errors_New ("stat " +:+ name +:+ ": permission denied"))
  else memfs.Stat (tree fs) name.

Definition ReadFile (fs : t) (name : string) : string + error :=
  if refused fs name
  then inr (errors_New ("open " +:+ name +:+ ": permission denied"))
  else memfs.ReadFile (tree fs) name.

Definition with_tree (fs : t) (x : memfs.t) : t :=
  {| tree := x; sealed := sealed fs; readonly := readonly fs |}.

(** On a read-only tree [MkdirAll] succeeds for a directory that is
    there. *)
Definition MkdirAll (fs : t) (path : string) : t * option error :=
  if readonly fs then
    match memfs.Stat (tree fs) path with
    | inl {| os.IsDir := true |} => (fs, None)
    | _ =>
        (fs, Some (errors_New ("mkdir " +:+ path
                               +:+ ": read-only file system")))
    end
  else
    let '(x, err) := memfs.MkdirAll (tree fs) path in (with_tree fs x, err).

Definition WriteFile (fs : t) (name data : string) : t * option error :=
  if readonly fs then
    (fs, Some (errors_New ("open " +:+ name +:+ ": read-only file system")))
  else
    let '(x, err) := memfs.WriteFile (tree fs) name data in
    (with_tree fs x, err).

#[global] Instance fileSystem : os.FileSystem t :=
  {| os.Stat := Stat; os.ReadFile := ReadFile;
     os.MkdirAll := MkdirAll; os.WriteFile := WriteFile |}.

End guardedfs.

(** ** The libraries of the glob walk, over the in-memory file system *)

Module memignore.

(** A compiled ignore file, cut down to plain names: its lines, each of
    which matches the paths that have it as a component. *)
Definition t : Type := list string.

Definition CompileIgnoreFile (fs : memfs.t) (path : string) : t + error :=
  match memfs.ReadFile fs path with
  | inl content => inl (doubles.lines content)
  | inr err => inr err
  end.

Definition MatchesPath (g : t) (relPath : string) : bool :=
  existsb
    (fun line => existsb (String.eqb line) (unixpath.components relPath)) g.

#[global] Instance library : ignore.Library memfs.t t :=
  {| ignore.CompileIgnoreFile := CompileIgnoreFile;
     ignore.MatchesPath := MatchesPath |}.

End memignore.

Module suffixglob.

Definition ends_with (name suffix : string) : bool :=
  String.eqb
    (String.substring (String.length name - String.length suffix)
                      (String.length suffix) name)
    suffix.

(** A matcher for the patterns of the form two stars, slash, star and a
    suffix, which match the names with that suffix at any depth; every
    other pattern is answered as malformed. *)
Definition Match (pattern name : string) : bool * option error :=
  if String.prefix "**/*" pattern
  then (ends_with name (strings.TrimPrefix pattern "**/*"), None)
  else (false, Some (errors_New "syntax error in pattern")).

Definition matcher : doublestar.Matcher := {| doublestar.Match := Match |}.

End suffixglob.

Module memwalk.

Definition entry (n : memfs.Node) : fastwalk.DirEntry :=
  match n with
  | memfs.RegularFile _ mtime =>
      {| fastwalk.IsDir := false;
         fastwalk.Info := inl {| os.IsDir := false; os.ModTime := mtime |} |}
  | memfs.Directory mtime =>
      {| fastwalk.IsDir := true;
         fastwalk.Info := inl {| os.IsDir := true; os.ModTime := mtime |} |}
  end.

Definition below (dir path : string) : bool :=
  String.eqb dir path || String.prefix (dir +:+ "/") path.

(** The walk over the listed nodes: a node below a pruned directory is
    passed over, [SkipDir] prunes the node it is answered for, and
    [SkipAll] ends the walk. *)
Fixpoint visit_all {S : Type} (entries : list (string * memfs.Node))
    (pruned : list string)
    (fn : string -> fastwalk.DirEntry -> option error -> S
          -> S * filepath.WalkSignal)
    (st : S) : S :=
  match entries with
  | [] => st
  | (path, n) :: rest =>
      if existsb (fun dir => below dir path) pruned
      then visit_all rest pruned fn st
      else
        match fn path (entry n) None st with
        | (st', filepath.Continue) => visit_all rest pruned fn st'
        | (st', filepath.SkipDir) => visit_all rest (path :: pruned) fn st'
        | (st', filepath.SkipAll) => st'
        end
  end.

(** The nodes at or below [root], parents before their children. *)
Definition listing (fs : memfs.t) (root : string)
  : list (string * memfs.Node) :=
  @merge_sort _
    (fun a b => (String.length (fst a) <= String.length (fst b))%nat)
    (fun a b => decide (String.length (fst a) <= String.length (fst b))%nat)
    (List.filter (fun e => below root (fst e))
                 (map_to_list (memfs.nodes fs))).

(** A walk fails when its root cannot be read. *)
Definition Walk {S : Type} (fs : memfs.t) (root : string)
    (fn : string -> fastwalk.DirEntry -> option error -> S
          -> S * filepath.WalkSignal)
    (st : S) : S * option error :=
  match memfs.Stat fs root with
  | inr err => (st, Some err)
  | inl _ => (visit_all (listing fs root) [] fn st, None)
  end.

#[global] Instance walker : fastwalk.Walker memfs.t :=
  {| fastwalk.Walk := @Walk |}.

End memwalk.

Module mergesort.

(** A sort that keeps the order of the elements that [less] does not tell
    apart. *)
Definition Slice {A : Type} (less : A -> A -> bool) (l : list A) : list A :=
  @merge_sort A (fun a b => less b a = false)
    (fun a b => decide (less b a = false)) l.

Definition sorter : sort.Sorter := {| sort.Slice := @Slice |}.

End mergesort.

(** ** A language server's messages *)

Module lspmessages.

(** Registration options are kept as their JSON text, a watcher is its glob
    pattern, an edit is a path with its new content, a diagnostic is its
    message; the application keeps the registrations it was told of and
    the counts it was given. *)
Inductive Told : Type :=
| Watching (id : string) (watchers : list string)
| Counted (name : string) (total : Z).

Definition watching (id : string) (watchers : list string)
    (app : list Told) : list Told :=
  app ++ [Watching id watchers].

Definition counted (name : string) (total : Z) (app : list Told)
  : list Told :=
  app ++ [Counted name total].

Definition registration (id method options : string)
  : protocol.Registration string :=
  {| protocol.ID := id; protocol.Method := method;
     protocol.RegisterOptions := options |}.

(** The messages the decoder knows. *)
Definition unmarshal_RegistrationParams (params : string)
  : list (protocol.Registration string) + error :=
  if String.eqb params "register" then
    inl [ registration "1" "workspace/didChangeWatchedFiles" "go";
          registration "2" "textDocument/formatting" "go";
          registration "3" "workspace/didChangeWatchedFiles" "broken";
          registration "4" "workspace/didChangeWatchedFiles" "md" ]
  else inr (errors_New "unexpected end of JSON input").

Definition unmarshal_WatchedFilesOptions (options : string)
  : list string + error :=
  if String.eqb options "go" then inl ["**/*.go"; "go.mod"]
  else if String.eqb options "md" then inl ["**/*.md"]
  else inr (errors_New "json: cannot unmarshal string into Go value").

Definition unmarshal_ApplyWorkspaceEditParams (params : string)
  : string * string + error :=
  if String.eqb params "edit" then inl ("/w/c.txt", "y")
  else inr (errors_New "unexpected end of JSON input").

Definition unmarshal_PublishDiagnosticsParams (params : string)
  : protocol.PublishDiagnosticsParams string + error :=
  if String.eqb params "publish" then
    inl {| protocol.URI := "file:///w/a.go";
           protocol.Diagnostics := ["unused variable"; "missing return"] |}
  else inr (errors_New "unexpected end of JSON input").

Definition ApplyWorkspaceEdit (fs : memfs.t) (edit : string * string)
  : memfs.t * option error :=
  memfs.WriteFile fs (fst edit) (snd edit).

#[global] Instance codec
  : @lsp.Codec string string (string * string) string memfs.t :=
  {| lsp.unmarshal_RegistrationParams := unmarshal_RegistrationParams;
     lsp.marshal_RegisterOptions := inl;
     lsp.unmarshal_WatchedFilesOptions := unmarshal_WatchedFilesOptions;
     lsp.unmarshal_ApplyWorkspaceEditParams :=
       unmarshal_ApplyWorkspaceEditParams;
     lsp.unmarshal_PublishDiagnosticsParams :=
       unmarshal_PublishDiagnosticsParams;
     lsp.ApplyWorkspaceEdit := ApplyWorkspaceEdit |}.

End lspmessages.

(** * Scenarios

    A project directory [/w] with a few files, a session whose history
    already holds two versions of [/w/d.txt], and the calls of the
    scenarios, named by their input. *)

Module scenario.

Import tools.

Definition tool : writeTool := {| workingDir := "/w" |}.

Definition ctx : Context.t :=
  {| Context.SessionID := Some "s"; Context.MessageID := Some "m" |}.

Definition params (path content : string) : WriteParams.t :=
  {| WriteParams.FilePath := path; WriteParams.Content := content |}.

(** The inputs the decoder knows, and what they decode to. *)
Definition inputs : list (string * WriteParams.t) :=
  [ ("fresh", params "a.txt" ("hello" +:+ LF));
    ("nested", params "sub/a.txt" "hello");
    ("stale", params "b.txt" "new");
    ("noop", params "/w/c.txt" "x");
    ("edit", params "d.txt" "v2");
    ("empty", params "/w/e.txt" "");
    ("overwrite", params "/w/f.txt" "new");
    ("outside", params "/tmp/g.txt" "g") ].

Definition call (input : string) : ToolCall.t :=
  {| ToolCall.ID := "call-" +:+ input;
     ToolCall.Name := WriteToolName;
     ToolCall.Input := input |}.

Definition disk : memfs.t :=
  {| memfs.nodes :=
       {[ "/" := memfs.Directory 1;
          "/tmp" := memfs.Directory 1;
          "/w" := memfs.Directory 2;
          "/w/b.txt" := memfs.RegularFile "b" 20;
          "/w/c.txt" := memfs.RegularFile "x" 5;
          "/w/d.txt" := memfs.RegularFile "user-edit" 8;
          "/w/e.txt" := memfs.RegularFile "" 5;
          "/w/f.txt" := memfs.RegularFile "old" 5 ]};
     memfs.clock := 100 |}.

(** Every file of the project was read at time 10. *)
Definition tracked : filetracker.t :=
  {| filetracker.readTime :=
       {[ "/w/b.txt" := 10; "/w/c.txt" := 10; "/w/d.txt" := 10;
          "/w/e.txt" := 10; "/w/f.txt" := 10 ]};
     filetracker.writeTime := ∅;
     filetracker.now := 100 |}.

Definition version (path content : string) (n : Z) : history.File :=
  {| history.SessionID := "s"; history.Path := path;
     history.Content := content; history.Version := n |}.

(** The store with the failures scheduled for its coming writes. *)
Definition recorded (failures : list bool) : memhistory.t :=
  {| memhistory.versions :=
       [version "/w/d.txt" "v0" 0; version "/w/d.txt" "v1" 1];
     memhistory.failures := failures |}.

Definition desk (answers : list broker.Answer) : broker.t :=
  {| broker.sessionPermissions := []; broker.answers := answers |}.

Definition servers : doubles.lsp :=
  {| doubles.reports := {[ "/w/a.txt" := LF +:+ "<file_diagnostics>" ]} |}.

(** The world before a call, given the failures scheduled for the history
    store and the user's answers. *)
Definition failing_world (failures : list bool) (answers : list broker.Answer)
  : @World memfs.t filetracker.t memhistory.t broker.t doubles.lsp :=
  {| fs := disk; fileRecords := tracked; files := recorded failures;
     permissions := desk answers; lspClients := servers |}.

(** The same with a history store that works. *)
Definition world (answers : list broker.Answer) := failing_world [] answers.

Definition run (input : string)
    (before : @World memfs.t filetracker.t memhistory.t broker.t doubles.lsp) :=
  Run (paths := unixpath.paths) (differ := doubles.differ)
      (rt := doubles.runtime inputs) tool ctx (call input) before.

Section Outcome.
Context {W : Type}.
Implicit Type r : ToolResponse.t * option error * W * list Event.

(** The four parts of what [Run] gives back. *)
Definition response_of r : ToolResponse.t := fst (fst (fst r)).
Definition error_of r : option error := snd (fst (fst r)).
Definition world_of r : W := snd (fst r).
Definition events_of r : list Event := snd r.
End Outcome.

(** The request that the call for [sub/a.txt] submits. *)
Definition nested_request : PermissionRequest :=
  {| permission.SessionID := "s";
     permission.ToolCallID := "call-nested";
     permission.ToolName := "write";
     permission.Description := "Create file /w/sub/a.txt";
     permission.Action := "write";
     permission.Params :=
       {| WritePermissionsParams.FilePath := "/w/sub/a.txt";
          WritePermissionsParams.OldContent := "";
          WritePermissionsParams.NewContent := "hello" |};
     permission.Path := "/w" |}.

End scenario.

(** ** Further cases: a project with sources, and worlds that fail *)

Module cases.

Import tools.

(** A context that names no session. *)
Definition anonymous : Context.t :=
  {| Context.SessionID := None; Context.MessageID := Some "m" |}.

(** The world of the scenarios on another file system. *)
Definition world_on {FS : Type} (disk : FS) (answers : list broker.Answer)
  : @World FS filetracker.t memhistory.t broker.t doubles.lsp :=
  {| fs := disk; fileRecords := scenario.tracked;
     files := scenario.recorded []; permissions := scenario.desk answers;
     lspClients := scenario.servers |}.

(** The disk of the scenarios with a directory where [/w/c.txt] was and a
    file where the directory [/w/sub] would be. *)
Definition crowded : memfs.t :=
  {| memfs.nodes :=
       <["/w/c.txt" := memfs.Directory 3]>
         (<["/w/sub" := memfs.RegularFile "not a directory" 3]>
            (memfs.nodes scenario.disk));
     memfs.clock := 100 |}.

(** The disk of the scenarios, read-only, and with [/w/f.txt] sealed. *)
Definition guarded : guardedfs.t :=
  {| guardedfs.tree := scenario.disk;
     guardedfs.sealed := ["/w/f.txt"];
     guardedfs.readonly := true |}.

Definition run_on {FS : Type} {fsys : os.FileSystem FS}
    (ctx : Context.t) (input : string)
    (before : @World FS filetracker.t memhistory.t broker.t doubles.lsp) :=
  Run (paths := unixpath.paths) (differ := doubles.differ)
      (rt := doubles.runtime scenario.inputs)
      scenario.tool ctx (scenario.call input) before.

(** A project with an ignore file, a build directory, a dependency
    directory and three Go sources of different ages. *)
Definition project : memfs.t :=
  {| memfs.nodes :=
       {[ "/" := memfs.Directory 1;
          "/p" := memfs.Directory 2;
          "/p/.gitignore" := memfs.RegularFile ("tmp" +:+ LF) 2;
          "/p/main.go" := memfs.RegularFile "package main" 30;
          "/p/README.md" := memfs.RegularFile "readme" 5;
          "/p/pkg" := memfs.Directory 3;
          "/p/pkg/a.go" := memfs.RegularFile "package pkg" 10;
          "/p/pkg/b.go" := memfs.RegularFile "package pkg" 20;
          "/p/tmp" := memfs.Directory 3;
          "/p/tmp/c.go" := memfs.RegularFile "package tmp" 40;
          "/p/node_modules" := memfs.Directory 3;
          "/p/node_modules/d.go" := memfs.RegularFile "package d" 50 ]};
     memfs.clock := 100 |}.

Definition glob (pattern searchPath : string) (limit : Z)
  : list string * bool * option error :=
  fsext.GlobWithDoubleStar
    (paths := unixpath.paths) (names := unixnames.names)
    (ign := memignore.library) (matcher := suffixglob.matcher)
    (walking := memwalk.walker) (sorter := mergesort.sorter)
    project pattern searchPath limit.

(** The walker of the project and the walk function of a glob for the Go
    files. *)
Definition walker : @fsext.FastGlobWalker memignore.t :=
  fsext.NewFastGlobWalker
    (paths := unixpath.paths) (ign := memignore.library) project "/p".

Definition visit (limit : Z) :=
  fsext.visit
    (paths := unixpath.paths) (names := unixnames.names)
    (ign := memignore.library) (matcher := suffixglob.matcher)
    walker "**/*.go" "/p" limit.

(** A language client with diagnostics for two files, and an application
    that has been told nothing yet. *)
Definition client : @lsp.Client string (list lspmessages.Told) :=
  {| lsp.name := "gopls";
     lsp.diagnostics :=
       {[ "file:///w/a.go" := ["old"];
          "file:///w/b.go" := ["x"; "y"; "z"] ]};
     lsp.onDiagnosticsChanged := Some lspmessages.counted |}.

Definition listening : @lsp.Env string (list lspmessages.Told) :=
  {| lsp.fileWatchHandler := Some lspmessages.watching;
     lsp.app := []; lsp.log := [] |}.

End cases.

(** * The events of a call, read *)

Module trace.

Import tools.

(** The calls on the history store among the events of a call. *)
Definition isHistoryCall (e : Event) : bool :=
  match e with
  | HistoryCreate _ _ _ _ | HistoryCreateVersion _ _ _ _ => true
  | _ => false
  end.

Definition historyCalls (events : list Event) : list Event :=
  List.filter isHistoryCall events.

End trace.

(** * Properties of [Run] over every implementation of its collaborators *)

Module WriteToolSpec.

Import tools.

(** Unfolds [Run] down to the calls on the interfaces. *)
Ltac unfold_run :=
  unfold Run, body, bind, os_Stat, os_ReadFile, os_MkdirAll, os_WriteFile,
    lastReadTime, recordWrite, recordRead, permissions_Request,
    files_GetByPathAndSession, files_Create, files_CreateVersion,
    slog_Debug, waitForDiagnostics, diagnosticsOf, observe, pure, ret in *.

(** Splits on the innermost undecided test of the hypothesis [H]. *)
Ltac split_test H :=
  match type of H with
  | context [match ?x with _ => _ end] =>
      lazymatch x with
      | context [match _ with _ => _ end] => fail
      | _ => destruct x eqn:?
      end
  | context [if ?x then _ else _] =>
      lazymatch x with
      | context [match _ with _ => _ end] => fail
      | _ => destruct x eqn:?
      end
  end.

(** Reads the fields of a world that has just been updated. *)
Ltac world_simpl H :=
  cbn beta iota zeta delta
    [negb fst snd fs fileRecords files permissions lspClients with_fs
     with_fileRecords with_files with_permissions with_lspClients] in H.

(** Follows [Run] along every path, leaving in [H] what it returned. *)
Ltac run_paths H :=
  unfold_run; cbn beta iota zeta in H;
  repeat (split_test H; world_simpl H);
  try discriminate H;
  first [ injection H as <- <- <- <- | injection H as <- <- <- | idtac ].

(** Finds an event in a concrete list. *)
Ltac find_event := cbn [app In]; repeat first [left; reflexivity | right].

(** Decides which event of a concrete list the hypothesis [H] names. *)
Ltac which_event H :=
  cbn [app In] in H;
  repeat match type of H with
         | _ \/ _ => destruct H as [H | H]
         | False => destruct H
         end;
  try discriminate H.

Section Run.
Context {FS T H P L : Type}.
Context {fsys : os.FileSystem FS} {paths : filepath.Paths}
        {tracker : FileTracker T} {hist : history.Service H}
        {broker : permission.Service P WritePermissionsParams.t}
        {diags : Diagnostics L} {differ : diff.Engine} {rt : Runtime}.

Implicit Types (w : writeTool) (ctx : Context.t) (call : ToolCall.t).
Implicit Types (world : @World FS T H P L).

(** C9: an error comes with the zero response, and a content-error
    response comes with a nil error; [Run] never answers a populated
    response together with an error. *)
Theorem Run_response_xor_error w ctx call world response err world' events :
  Run w ctx call world = (response, err, world', events) ->
  (err <> None -> response = ToolResponse.zero) /\
  (ToolResponse.IsError response = true -> err = None).
Proof.
  intros HRun. run_paths HRun; cbn; split; congruence.
Qed.

(** C2: when the target exists and was modified after it was last read,
    [Run] answers a content error with a nil error, and the world is
    what it was: no file-system, history or tracker change, no event. *)
Theorem Run_stale_file_content_error w ctx call world params info :
  json_Unmarshal (ToolCall.Input call) = inl params ->
  os.Stat (fs world) (resolve w (WriteParams.FilePath params)) = inl info ->
  After (os.ModTime info)
        (getLastReadTime (fileRecords world)
                         (resolve w (WriteParams.FilePath params))) = true ->
  exists response,
    Run w ctx call world = (response, None, world, []) /\
    ToolResponse.IsError response = true.
Proof.
  intros Hparams Hstat Hstale. unfold_run. rewrite Hparams.
  destruct (String.eqb (WriteParams.FilePath params) "");
    [eexists; split; reflexivity |].
  destruct (String.eqb (WriteParams.Content params) "");
    [eexists; split; reflexivity |].
  cbn beta iota zeta. rewrite Hstat.
  destruct (os.IsDir info); [eexists; split; reflexivity |].
  cbn beta iota zeta. rewrite Hstale.
  eexists; split; reflexivity.
Qed.

(** The text of the stale-file answer, for a regular file and
    well-formed parameters. *)
Lemma Run_stale_file_message w ctx call world params info :
  json_Unmarshal (ToolCall.Input call) = inl params ->
  WriteParams.FilePath params <> "" ->
  WriteParams.Content params <> "" ->
  let filePath := resolve w (WriteParams.FilePath params) in
  let lastRead := getLastReadTime (fileRecords world) filePath in
  os.Stat (fs world) filePath = inl info ->
  os.IsDir info = false ->
  After (os.ModTime info) lastRead = true ->
  Run w ctx call world =
    (NewTextErrorResponse
       ("File " +:+ filePath
        +:+ " has been modified since it was last read."
        +:+ LF +:+ "Last modification: " +:+ Format_RFC3339 (os.ModTime info)
        +:+ LF +:+ "Last read: " +:+ Format_RFC3339 lastRead
        +:+ LF +:+ LF
        +:+ "Please read the file again before modifying it."),
     None, world, []).
Proof.
  intros Hparams Hpath Hcontent filePath lastRead Hstat Hdir Hstale.
  subst filePath lastRead. unfold_run. rewrite Hparams.
  apply String.eqb_neq in Hpath, Hcontent. rewrite Hpath, Hcontent.
  cbn beta iota zeta. rewrite Hstat, Hdir.
  cbn beta iota zeta. rewrite Hstale. reflexivity.
Qed.

(** C6, amended: for a call with non-empty path and content whose
    target is a regular file, not modified since it was last read, that
    already holds the requested content, [Run] answers the
    already-contains content error; nothing is written, no permission is
    asked and the history is not touched: the world is unchanged and the
    call leaves no event. *)
Theorem Run_identical_content_noop w ctx call world params info :
  json_Unmarshal (ToolCall.Input call) = inl params ->
  WriteParams.FilePath params <> "" ->
  WriteParams.Content params <> "" ->
  let filePath := resolve w (WriteParams.FilePath params) in
  os.Stat (fs world) filePath = inl info ->
  os.IsDir info = false ->
  After (os.ModTime info)
        (getLastReadTime (fileRecords world) filePath) = false ->
  os.ReadFile (fs world) filePath = inl (WriteParams.Content params) ->
  Run w ctx call world =
    (NewTextErrorResponse
       ("File " +:+ filePath
        +:+ " already contains the exact content. No changes made."),
     None, world, []).
Proof.
  intros Hparams Hpath Hcontent filePath Hstat Hdir Hfresh Hread.
  subst filePath. unfold_run. rewrite Hparams.
  apply String.eqb_neq in Hpath, Hcontent. rewrite Hpath, Hcontent.
  cbn beta iota zeta. rewrite Hstat, Hdir.
  cbn beta iota zeta. rewrite Hfresh.
  cbn beta iota zeta. rewrite Hread, String.eqb_refl. reflexivity.
Qed.

(** C1, amended: when the broker denies the request of a call, [Run]
    answers the zero response with [ErrorPermissionDenied]; the history,
    the tracker and the diagnostics state are untouched and no file is
    written: the only events of the call are the creation of the parent
    directories, done before the request, and the request itself. *)
Theorem Run_denied w ctx call world response err world' events req :
  Run w ctx call world = (response, err, world', events) ->
  In (Requested req false) events ->
  let dir :=
    filepath.Dir (WritePermissionsParams.FilePath (permission.Params req)) in
  response = ToolResponse.zero /\
  err = Some ErrorPermissionDenied /\
  events = [MadeDirs dir None; Requested req false] /\
  fs world' = fst (os.MkdirAll (fs world) dir) /\
  files world' = files world /\
  fileRecords world' = fileRecords world /\
  lspClients world' = lspClients world.
Proof.
  intros HRun Hdenied dir. subst dir.
  run_paths HRun; which_event Hdenied.
  all: injection Hdenied as Hreq Hgranted; subst req b; try discriminate.
  all: cbn;
    match goal with
    | E : os.MkdirAll _ _ = _ |- _ => rewrite E
    end;
    repeat split; reflexivity.
Qed.

(** C7: the request of a call carries the working directory as its path
    when [filepath.Rel] from the working directory to the resolved file
    path succeeds with a result that does not begin with two dots, and
    the resolved file path otherwise. *)
Theorem Run_request_path w ctx call world response err world' events
    req granted params :
  Run w ctx call world = (response, err, world', events) ->
  In (Requested req granted) events ->
  json_Unmarshal (ToolCall.Input call) = inl params ->
  let filePath := resolve w (WriteParams.FilePath params) in
  permission.Path req =
    match filepath.Rel (workingDir w) filePath with
    | inl rel =>
        if strings.HasPrefix rel ".." then filePath else workingDir w
    | inr _ => filePath
    end.
Proof.
  intros HRun Hreq Hparams filePath. subst filePath.
  unfold_run. rewrite Hparams in HRun.
  run_paths HRun; which_event Hreq.
  all: injection Hreq as Hreq Hgranted; subst req.
  all: cbn; unfold fsext.PathOrPrefix, fsext.HasPrefix.
  all: destruct (filepath.Rel _ _); [| reflexivity].
  all: destruct (strings.HasPrefix _ _); reflexivity.
Qed.

(** C8: a successful call answers the written-file message inside the
    result tags, followed by the diagnostics of the file, and its
    metadata are the diff and the counts that [GenerateDiff] gives for
    the captured old content and the written content. *)
Theorem Run_success_response w ctx call world response world' events params :
  Run w ctx call world = (response, None, world', events) ->
  ToolResponse.IsError response = false ->
  json_Unmarshal (ToolCall.Input call) = inl params ->
  let filePath := resolve w (WriteParams.FilePath params) in
  let generated :=
    diff.GenerateDiff (capturedContent world filePath)
                      (WriteParams.Content params)
                      (strings.TrimPrefix filePath (workingDir w)) in
  ToolResponse.Content response =
    writtenMessage filePath +:+ getDiagnostics (lspClients world') filePath /\
  ToolResponse.Metadata response =
    Some {| WriteResponseMetadata.Diff := fst (fst generated);
            WriteResponseMetadata.Additions := snd (fst generated);
            WriteResponseMetadata.Removals := snd generated |}.
Proof.
  intros HRun Hok Hparams filePath generated. subst filePath generated.
  unfold capturedContent.
  unfold_run. rewrite Hparams in HRun.
  run_paths HRun; try discriminate Hok.
  all: cbn beta iota zeta delta [fst snd negb];
    repeat match goal with
           | E : os.ReadFile _ _ = _ |- _ => rewrite E
           end;
    try match goal with
        | E : diff.GenerateDiff _ _ _ = _ |- _ => rewrite E
        end;
    split; reflexivity.
Qed.

(** C5: once the file is written, a failing [Create] of the first
    version makes [Run] answer an error; without such a failure [Run]
    answers the success response with a nil error whatever the outcome
    of the [CreateVersion] calls, each failure of which is logged. *)
Theorem Run_history_failures w ctx call world response err world' events
    path content :
  Run w ctx call world = (response, err, world', events) ->
  In (WroteFile path content None) events ->
  (forall sessionID p c e,
     In (HistoryCreate sessionID p c (Some e)) events ->
     response = ToolResponse.zero /\
     err = Some (Errorf "error creating file history" e)) /\
  ((forall sessionID p c e,
      ~ In (HistoryCreate sessionID p c (Some e)) events) ->
   err = None /\
   ToolResponse.IsError response = false /\
   ToolResponse.Content response =
     writtenMessage path +:+ getDiagnostics (lspClients world') path /\
   forall sessionID p c e,
     In (HistoryCreateVersion sessionID p c (Some e)) events ->
     In (SlogDebug "Error creating file history version" e) events).
Proof.
  intros HRun Hwrote.
  run_paths HRun; which_event Hwrote.
  all: injection Hwrote as <- <-.
  all: split;
    [ intros ? ? ? e' Hcreate; which_event Hcreate;
      injection Hcreate as _ _ _ <-; split; reflexivity
    | intros Hnone ].
  all: try solve [exfalso; eapply Hnone; find_event].
  all: repeat split; try reflexivity.
  all: intros ? ? ? e' Hversion; which_event Hversion.
  all: injection Hversion as _ _ _ <-; find_event.
Qed.

End Run.

(** ** The versions kept by the history store *)

(** A lookup in the store finds the latest version of a recorded key. *)
Lemma lookup_recorded h sessionID path :
  memhistory.versions_of h sessionID path <> [] ->
  memhistory.GetByPathAndSession h path sessionID =
    (List.last (memhistory.versions_of h sessionID path) history.zero, None).
Proof.
  unfold memhistory.GetByPathAndSession.
  induction (memhistory.versions_of h sessionID path) as [| f l IH];
    [congruence |].
  intros _. destruct l as [| g l]; [reflexivity |].
  cbn [List.map List.last] in *. apply IH. discriminate.
Qed.

(** A lookup of a key without versions fails with the zero [File]. *)
Lemma lookup_unrecorded h sessionID path :
  memhistory.versions_of h sessionID path = [] ->
  exists e,
    memhistory.GetByPathAndSession h path sessionID = (history.zero, Some e).
Proof.
  unfold memhistory.GetByPathAndSession. intros ->. eexists. reflexivity.
Qed.

(** A write that succeeds appends its content to the versions of its key;
    a write that fails leaves every key as it is. *)
Lemma append_contents h sessionID path content h' f err :
  memhistory.append h sessionID path content = (h', (f, err)) ->
  memhistory.contents_of h' sessionID path =
    memhistory.contents_of h sessionID path
    ++ (match err with Some _ => [] | None => [content] end).
Proof.
  unfold memhistory.append, memhistory.contents_of, memhistory.versions_of.
  assert (Hgrown :
            List.map history.Content
              (List.filter (memhistory.is_for sessionID path)
                 (memhistory.versions h
                  ++ [memhistory.next h sessionID path content])) =
            List.map history.Content
              (List.filter (memhistory.is_for sessionID path)
                 (memhistory.versions h)) ++ [content]).
  { rewrite List.filter_app, List.map_app. cbn [List.filter].
    unfold memhistory.is_for at 2.
    cbn [memhistory.next history.SessionID history.Path].
    rewrite !String.eqb_refl. reflexivity. }
  destruct (memhistory.failures h) as [| [] rest];
    intros Hwrite; injection Hwrite as <- <- <-; cbn [memhistory.versions].
  - exact Hgrown.
  - symmetry. apply app_nil_r.
  - exact Hgrown.
Qed.

(** Replaces each write to the store by what it did to the key. *)
Ltac store_writes :=
  repeat match goal with
         | E : history.CreateVersion _ _ _ _ = _ |- _ =>
             apply append_contents in E
         | E : history.Create _ _ _ _ = _ |- _ =>
             apply append_contents in E
         end.

(** Reads the fields of an updated world in the goal. *)
Ltac world_simpl_goal :=
  cbn beta iota zeta delta
    [negb fst snd fs fileRecords files permissions lspClients with_fs
     with_fileRecords with_files with_permissions with_lspClients].

(** Discards the path on which a [CreateVersion] failed, given that no such
    failure is among the events. *)
Ltac no_failed_version Hnone :=
  try solve [exfalso; eapply Hnone; find_event].

Section Recorded.
Context {FS T P L : Type}.
Context {fsys : os.FileSystem FS} {paths : filepath.Paths}
        {tracker : FileTracker T}
        {broker : permission.Service P WritePermissionsParams.t}
        {diags : Diagnostics L} {differ : diff.Engine} {rt : Runtime}.

Implicit Types (w : writeTool) (ctx : Context.t) (call : ToolCall.t).
Implicit Types (world : @World FS T memhistory.t P L).

(** C3: for a successful write to a key that the history store already
    holds, none of whose history writes failed, the post-image is
    appended, and the captured pre-image is appended before it exactly when
    it differs from the latest recorded version. *)
Theorem Run_intermediate_version w ctx call world response world' events
    params :
  Run w ctx call world = (response, None, world', events) ->
  ToolResponse.IsError response = false ->
  (forall sessionID p c e,
     ~ In (HistoryCreateVersion sessionID p c (Some e)) events) ->
  json_Unmarshal (ToolCall.Input call) = inl params ->
  let filePath := resolve w (WriteParams.FilePath params) in
  let sessionID := fst (GetContextValues ctx) in
  let old := capturedContent world filePath in
  let new := WriteParams.Content params in
  let recorded := memhistory.versions_of (files world) sessionID filePath in
  let latest := history.Content (List.last recorded history.zero) in
  recorded <> [] ->
  (latest <> old ->
   memhistory.contents_of (files world') sessionID filePath =
     List.map history.Content recorded ++ [old; new]) /\
  (latest = old ->
   memhistory.contents_of (files world') sessionID filePath =
     List.map history.Content recorded ++ [new]).
Proof.
  intros HRun Hok Hnone Hparams filePath sessionID old new recorded latest Hrec.
  subst filePath sessionID old new recorded latest.
  unfold capturedContent.
  unfold_run. rewrite Hparams in HRun.
  run_paths HRun; try discriminate Hok.
  all: no_failed_version Hnone.
  all: world_simpl Hrec; world_simpl_goal;
    repeat match goal with
           | E : os.ReadFile _ _ = _ |- _ => rewrite E
           end.
  all: pose proof (lookup_recorded _ _ _ Hrec) as Hget;
    match goal with
    | E : history.GetByPathAndSession _ _ _ = _ |- _ =>
        pose proof (eq_trans (eq_sym Hget) E) as Hlast;
        inversion Hlast; subst; clear Hlast
    end.
  all: store_writes.
  all: repeat match goal with
              | E : memhistory.contents_of _ _ _ = _ |- _ => rewrite E; clear E
              end.
  all: unfold memhistory.contents_of.
  all: match goal with
       | E : negb (String.eqb ?a ?b) = _ |- _ =>
           destruct (String.eqb_spec a b); try discriminate E
       end.
  all: split; intros Hlatest; try contradiction;
    rewrite <- ?app_assoc; reflexivity.
Qed.

(** The versions after the first successful write of a session to a path,
    none of whose history writes failed: the pre-image and the post-image
    when the captured pre-image is empty, and the pre-image twice before
    the post-image otherwise, since the zero [File] of the failed lookup is
    compared with it. *)
Lemma Run_first_versions w ctx call world response world' events params :
  Run w ctx call world = (response, None, world', events) ->
  ToolResponse.IsError response = false ->
  (forall sessionID p c e,
     ~ In (HistoryCreateVersion sessionID p c (Some e)) events) ->
  json_Unmarshal (ToolCall.Input call) = inl params ->
  let filePath := resolve w (WriteParams.FilePath params) in
  let sessionID := fst (GetContextValues ctx) in
  let old := capturedContent world filePath in
  let new := WriteParams.Content params in
  memhistory.versions_of (files world) sessionID filePath = [] ->
  memhistory.contents_of (files world') sessionID filePath =
    if String.eqb old "" then [old; new] else [old; old; new].
Proof.
  intros HRun Hok Hnone Hparams filePath sessionID old new Hunrecorded.
  subst filePath sessionID old new.
  unfold capturedContent.
  unfold_run. rewrite Hparams in HRun.
  run_paths HRun; try discriminate Hok.
  all: no_failed_version Hnone.
  all: world_simpl Hunrecorded; world_simpl_goal;
    repeat match goal with
           | E : os.ReadFile _ _ = _ |- _ => rewrite E
           end.
  all: destruct (lookup_unrecorded _ _ _ Hunrecorded) as [e' Hget];
    match goal with
    | E : history.GetByPathAndSession _ _ _ = _ |- _ =>
        pose proof (eq_trans (eq_sym Hget) E) as Hlast;
        inversion Hlast; subst; clear Hlast
    end.
  all: store_writes.
  all: repeat match goal with
              | E : memhistory.contents_of _ _ _ = _ |- _ => rewrite E; clear E
              end.
  all: unfold memhistory.contents_of; rewrite Hunrecorded.
  all: cbn [history.Content history.zero] in *.
  all: try match goal with
           | E : negb (String.eqb "" "") = true |- _ => discriminate E
           | E : negb (String.eqb ?a ?b) = _ |- _ =>
               rewrite (String.eqb_sym b a);
               destruct (String.eqb a b); try discriminate E
           end.
  all: reflexivity.
Qed.

End Recorded.

(** ** The scenarios, run *)

Lemma outcome_parts {W : Type}
    (r : ToolResponse.t * option error * W * list Event) :
  r = (scenario.response_of r, scenario.error_of r, scenario.world_of r,
       scenario.events_of r).
Proof. destruct r as [[[? ?] ?] ?]. reflexivity. Qed.

(** C1, as stated, fails: the user denies the write of [sub/a.txt], [Run]
    answers [ErrorPermissionDenied], and yet the directory [/w/sub], absent
    before the call, exists after it. *)
Lemma Run_denied_makes_directory :
  let before := scenario.world [broker.deny] in
  let r := scenario.run "nested" before in
  In (Requested scenario.nested_request false) (scenario.events_of r) /\
  scenario.error_of r = Some ErrorPermissionDenied /\
  os.Stat (fs before) "/w/sub" =
    inr (ErrNotExist "stat /w/sub: no such file or directory") /\
  os.Stat (fs (scenario.world_of r)) "/w/sub" =
    inl {| os.IsDir := true; os.ModTime := 100 |} /\
  fs (scenario.world_of r) <> fs before.
Proof.
  cbv zeta.
  split; [vm_compute; auto |].
  split; [vm_compute; reflexivity |].
  split; [vm_compute; reflexivity |].
  split; [vm_compute; reflexivity |].
  intros Hsame.
  apply (f_equal (fun x => os.Stat x "/w/sub")) in Hsame.
  vm_compute in Hsame. discriminate Hsame.
Qed.

Lemma Run_denied_witness :
  let before := scenario.world [broker.deny] in
  let r := scenario.run "nested" before in
  scenario.response_of r = ToolResponse.zero /\
  scenario.error_of r = Some ErrorPermissionDenied /\
  scenario.events_of r =
    [MadeDirs "/w/sub" None; Requested scenario.nested_request false] /\
  fs (scenario.world_of r) = fst (os.MkdirAll (fs before) "/w/sub") /\
  files (scenario.world_of r) = files before /\
  fileRecords (scenario.world_of r) = fileRecords before /\
  lspClients (scenario.world_of r) = lspClients before.
Proof.
  cbv zeta.
  apply (Run_denied (paths := unixpath.paths) (differ := doubles.differ)
           (rt := doubles.runtime scenario.inputs)
           scenario.tool scenario.ctx (scenario.call "nested")
           (scenario.world [broker.deny]) _ _ _ _ scenario.nested_request).
  - apply outcome_parts.
  - vm_compute; auto.
Defined.

Lemma Run_stale_file_content_error_witness :
  exists response,
    scenario.run "stale" (scenario.world []) =
      (response, None, scenario.world [], []) /\
    ToolResponse.IsError response = true.
Proof.
  apply (Run_stale_file_content_error
           (paths := unixpath.paths) (differ := doubles.differ)
           (rt := doubles.runtime scenario.inputs)
           scenario.tool scenario.ctx (scenario.call "stale")
           (scenario.world []) (scenario.params "b.txt" "new")
           {| os.IsDir := false; os.ModTime := 20 |});
    vm_compute; reflexivity.
Defined.

(** C6, as stated, fails: [/w/e.txt] is an empty file read after its last
    change and the call asks for the empty content, which is what the file
    holds; [Run] answers that content is required, not that the file
    already contains the content. *)
Lemma Run_empty_content_not_noop :
  let before := scenario.world [] in
  let r := scenario.run "empty" before in
  json_Unmarshal (Runtime := doubles.runtime scenario.inputs) "empty" =
    inl (scenario.params "/w/e.txt" "") /\
  os.Stat (fs before) "/w/e.txt" =
    inl {| os.IsDir := false; os.ModTime := 5 |} /\
  os.ReadFile (fs before) "/w/e.txt" = inl "" /\
  After 5 (getLastReadTime (fileRecords before) "/w/e.txt") = false /\
  scenario.response_of r = NewTextErrorResponse "content is required" /\
  scenario.response_of r <>
    NewTextErrorResponse
      "File /w/e.txt already contains the exact content. No changes made.".
Proof.
  cbv zeta. repeat split; try (vm_compute; reflexivity).
  vm_compute. discriminate.
Qed.

Lemma Run_identical_content_noop_witness :
  scenario.run "noop" (scenario.world []) =
    (NewTextErrorResponse
       ("File " +:+ resolve (paths := unixpath.paths) scenario.tool "/w/c.txt"
        +:+ " already contains the exact content. No changes made."),
     None, scenario.world [], []).
Proof.
  apply (Run_identical_content_noop
           (paths := unixpath.paths) (differ := doubles.differ)
           (rt := doubles.runtime scenario.inputs)
           scenario.tool scenario.ctx (scenario.call "noop")
           (scenario.world []) (scenario.params "/w/c.txt" "x")
           {| os.IsDir := false; os.ModTime := 5 |});
    first [discriminate | vm_compute; reflexivity].
Defined.

Lemma Run_intermediate_version_witness :
  let before := scenario.world [broker.allow_once] in
  let r := scenario.run "edit" before in
  memhistory.contents_of (files before) "s" "/w/d.txt" = ["v0"; "v1"] /\
  capturedContent (paths := unixpath.paths) before "/w/d.txt" = "user-edit" /\
  memhistory.contents_of (files (scenario.world_of r)) "s" "/w/d.txt" =
    ["v0"; "v1"; "user-edit"; "v2"].
Proof.
  cbv zeta.
  split; [vm_compute; reflexivity |].
  split; [vm_compute; reflexivity |].
  refine (proj1
            (Run_intermediate_version
               (paths := unixpath.paths) (differ := doubles.differ)
               (rt := doubles.runtime scenario.inputs)
               scenario.tool scenario.ctx (scenario.call "edit")
               (scenario.world [broker.allow_once])
               (scenario.response_of _) (scenario.world_of _)
               (scenario.events_of _)
               (scenario.params "d.txt" "v2") _ _ _ _ _) _).
  - etransitivity; [apply outcome_parts |].
    apply (f_equal (fun e => (_, e, _, _))). vm_compute; reflexivity.
  - vm_compute; reflexivity.
  - intros sessionID p c e Hfailed. vm_compute in Hfailed.
    repeat destruct Hfailed as [Hfailed | Hfailed];
      try discriminate Hfailed; exact Hfailed.
  - vm_compute; reflexivity.
  - vm_compute. discriminate.
  - vm_compute. discriminate.
Defined.

(** C3, as stated, fails: the history store refuses the intermediate
    version of [/w/d.txt], [Run] writes the file, logs the refusal and
    succeeds; the pre-image [user-edit] differs from the latest recorded
    version [v1], and yet only the post-image is appended. *)
Lemma Run_intermediate_version_lost :
  let before := scenario.failing_world [true] [broker.allow_once] in
  let r := scenario.run "edit" before in
  scenario.error_of r = None /\
  ToolResponse.IsError (scenario.response_of r) = false /\
  memhistory.contents_of (files before) "s" "/w/d.txt" = ["v0"; "v1"] /\
  capturedContent (paths := unixpath.paths) before "/w/d.txt" = "user-edit" /\
  os.ReadFile (fs (scenario.world_of r)) "/w/d.txt" = inl "v2" /\
  In (HistoryCreateVersion "s" "/w/d.txt" "user-edit"
        (Some (errors_New "database is locked")))
     (scenario.events_of r) /\
  memhistory.contents_of (files (scenario.world_of r)) "s" "/w/d.txt" =
    ["v0"; "v1"; "v2"].
Proof.
  cbv zeta. repeat split; try (vm_compute; reflexivity).
  vm_compute. auto 10.
Qed.

(** C4 at the failing input: [/w/f.txt] holds [old], was read after its
    last change and has no version in the session; writing [new] succeeds
    and leaves three versions, the pre-image twice. *)
Lemma Run_unrecorded_file_three_versions :
  let before := scenario.world [broker.allow_once] in
  let r := scenario.run "overwrite" before in
  scenario.error_of r = None /\
  ToolResponse.IsError (scenario.response_of r) = false /\
  os.ReadFile (fs before) "/w/f.txt" = inl "old" /\
  memhistory.contents_of (files before) "s" "/w/f.txt" = [] /\
  memhistory.contents_of (files (scenario.world_of r)) "s" "/w/f.txt" =
    ["old"; "old"; "new"].
Proof.
  cbv zeta. repeat split; vm_compute; reflexivity.
Qed.

(** Spec scenario 1: a file that did not exist gets the empty pre-image
    and the post-image. *)
Lemma Run_fresh_file_two_versions :
  let before := scenario.world [broker.allow_once] in
  let r := scenario.run "fresh" before in
  scenario.error_of r = None /\
  os.ReadFile (fs (scenario.world_of r)) "/w/a.txt" = inl ("hello" +:+ LF) /\
  memhistory.contents_of (files (scenario.world_of r)) "s" "/w/a.txt" =
    [""; "hello" +:+ LF].
Proof.
  cbv zeta. repeat split; vm_compute; reflexivity.
Qed.

Lemma Run_history_failures_witness :
  let before := scenario.failing_world [true; true] [broker.allow_once] in
  let r := scenario.run "edit" before in
  let locked := errors_New "database is locked" in
  In (HistoryCreateVersion "s" "/w/d.txt" "user-edit" (Some locked))
     (scenario.events_of r) /\
  In (HistoryCreateVersion "s" "/w/d.txt" "v2" (Some locked))
     (scenario.events_of r) /\
  In (SlogDebug "Error creating file history version" locked)
     (scenario.events_of r) /\
  scenario.error_of r = None /\
  ToolResponse.IsError (scenario.response_of r) = false.
Proof.
  cbv zeta.
  destruct (Run_history_failures
              (paths := unixpath.paths) (differ := doubles.differ)
              (rt := doubles.runtime scenario.inputs)
              scenario.tool scenario.ctx (scenario.call "edit")
              (scenario.failing_world [true; true] [broker.allow_once])
              _ _ _ _ "/w/d.txt" "v2"
              (outcome_parts _))
    as [_ Hsuccess].
  - vm_compute; auto.
  - destruct Hsuccess as (Herr & Hok & _ & Hlogged).
    + intros sessionID p c e Hcreate. vm_compute in Hcreate.
      repeat destruct Hcreate as [Hcreate | Hcreate];
        try discriminate Hcreate; exact Hcreate.
    + assert (Hsecond :
                In (HistoryCreateVersion "s" "/w/d.txt" "v2"
                      (Some (errors_New "database is locked")))
                   (scenario.events_of
                      (scenario.run "edit"
                         (scenario.failing_world [true; true]
                            [broker.allow_once]))))
        by (vm_compute; auto 10).
      split; [vm_compute; auto 10 |].
      split; [exact Hsecond |].
      split; [exact (Hlogged _ _ _ _ Hsecond) |].
      split; [exact Herr | exact Hok].
Defined.

(** When the first version cannot be created the call fails, although the
    file is written. *)
Lemma Run_create_failure :
  let before := scenario.failing_world [true] [broker.allow_once] in
  let r := scenario.run "fresh" before in
  scenario.response_of r = ToolResponse.zero /\
  scenario.error_of r =
    Some (Errorf "error creating file history"
            (errors_New "database is locked")) /\
  os.ReadFile (fs (scenario.world_of r)) "/w/a.txt" = inl ("hello" +:+ LF).
Proof.
  cbv zeta. repeat split; vm_compute; reflexivity.
Qed.

Lemma Run_request_path_witness :
  let r := scenario.run "nested" (scenario.world [broker.deny]) in
  In (Requested scenario.nested_request false) (scenario.events_of r) /\
  filepath.Rel (Paths := unixpath.paths) "/w" "/w/sub/a.txt" =
    inl "sub/a.txt" /\
  permission.Path scenario.nested_request = "/w".
Proof.
  cbv zeta.
  assert (Hrequested :
            In (Requested scenario.nested_request false)
               (scenario.events_of
                  (scenario.run "nested" (scenario.world [broker.deny]))))
    by (vm_compute; auto).
  split; [exact Hrequested |].
  split; [vm_compute; reflexivity |].
  exact (Run_request_path
           (paths := unixpath.paths) (differ := doubles.differ)
           (rt := doubles.runtime scenario.inputs)
           scenario.tool scenario.ctx (scenario.call "nested")
           (scenario.world [broker.deny]) _ _ _ _
           scenario.nested_request false
           (scenario.params "sub/a.txt" "hello")
           (outcome_parts _) Hrequested eq_refl).
Defined.

(** A path outside the working directory is requested as it is. *)
Lemma Run_request_path_outside :
  let r := scenario.run "outside" (scenario.world [broker.allow_once]) in
  filepath.Rel (Paths := unixpath.paths) "/w" "/tmp/g.txt" =
    inl "../tmp/g.txt" /\
  exists req,
    In (Requested req true) (scenario.events_of r) /\
    permission.Path req = "/tmp/g.txt".
Proof.
  cbv zeta. split; [vm_compute; reflexivity |].
  eexists. split; [vm_compute; right; left; reflexivity | reflexivity].
Qed.

Lemma Run_success_response_witness :
  let r := scenario.run "fresh" (scenario.world [broker.allow_once]) in
  ToolResponse.Content (scenario.response_of r) =
    "<result>" +:+ LF +:+ "File successfully written: /w/a.txt" +:+ LF
    +:+ "</result>" +:+ LF +:+ "<file_diagnostics>" /\
  ToolResponse.Metadata (scenario.response_of r) =
    Some {| WriteResponseMetadata.Diff :=
              "--- a//a.txt" +:+ LF +:+ "+++ b//a.txt" +:+ LF
              +:+ "+hello" +:+ LF;
            WriteResponseMetadata.Additions := 1;
            WriteResponseMetadata.Removals := 0 |}.
Proof.
  intros r.
  pose proof
    (Run_success_response
       (paths := unixpath.paths) (differ := doubles.differ)
       (rt := doubles.runtime scenario.inputs)
       scenario.tool scenario.ctx (scenario.call "fresh")
       (scenario.world [broker.allow_once])
       (scenario.response_of r) (scenario.world_of r) (scenario.events_of r)
       (scenario.params "a.txt" ("hello" +:+ LF))) as Hthm.
  destruct Hthm as [Hcontent Hmetadata].
  - etransitivity; [apply outcome_parts |].
    apply (f_equal (fun e => (_, e, _, _))). vm_compute; reflexivity.
  - vm_compute; reflexivity.
  - vm_compute; reflexivity.
  - split.
    + rewrite Hcontent. vm_compute; reflexivity.
    + rewrite Hmetadata. vm_compute; reflexivity.
Defined.

Lemma Run_response_xor_error_witness :
  let r := scenario.run "nested" (scenario.world [broker.deny]) in
  (scenario.error_of r <> None ->
   scenario.response_of r = ToolResponse.zero) /\
  (ToolResponse.IsError (scenario.response_of r) = true ->
   scenario.error_of r = None).
Proof.
  exact (Run_response_xor_error
           (paths := unixpath.paths) (differ := doubles.differ)
           (rt := doubles.runtime scenario.inputs)
           scenario.tool scenario.ctx (scenario.call "nested")
           (scenario.world [broker.deny]) _ _ _ _ (outcome_parts _)).
Defined.

End WriteToolSpec.

(** * Line endings *)

Module LineEndings.

(** A string without the pattern comes back from [ReplaceAll] as it is. *)
Lemma replace_scan_absent old new s :
  old <> "" ->
  strings.Contains s old = false ->
  strings.replace_scan old new O s = s.
Proof.
  intros Hold. induction s as [| c rest IH]; [reflexivity |].
  cbn [strings.Contains strings.replace_scan].
  intros Habsent. apply orb_false_iff in Habsent as [Hhere Hlater].
  rewrite Hhere, IH by assumption. reflexivity.
Qed.

Lemma replace_scan_cons old new c rest :
  strings.replace_scan old new O (String c rest) =
    if String.prefix old (String c rest)
    then new +:+ strings.replace_scan old new (pred (String.length old)) rest
    else String c (strings.replace_scan old new O rest).
Proof. reflexivity. Qed.

Lemma prefix_empty s : String.prefix "" s = true.
Proof. destruct s; reflexivity. Qed.

Lemma prefix_LF c rest : String.prefix LF (String c rest) = Ascii.eqb lf c.
Proof.
  change (String.prefix LF (String c rest))
    with (if ascii_dec lf c then String.prefix "" rest else false).
  destruct (ascii_dec lf c) as [<- | Hne].
  - rewrite Ascii.eqb_refl. apply prefix_empty.
  - symmetry. apply Ascii.eqb_neq, Hne.
Qed.

Lemma prefix_CRLF c rest :
  String.prefix CRLF (String c rest) = Ascii.eqb cr c && String.prefix LF rest.
Proof.
  change (String.prefix CRLF (String c rest))
    with (if ascii_dec cr c then String.prefix LF rest else false).
  destruct (ascii_dec cr c) as [<- | Hne].
  - rewrite Ascii.eqb_refl. reflexivity.
  - apply Ascii.eqb_neq in Hne. rewrite Hne. reflexivity.
Qed.

(** No carriage return, hence no CR LF. *)
Lemma no_cr_no_crlf s :
  ~ In cr (list_ascii_of_string s) ->
  strings.Contains s CRLF = false.
Proof.
  induction s as [| c rest IH]; [reflexivity |].
  cbn [list_ascii_of_string In strings.Contains]. intros Hfree.
  rewrite IH, prefix_CRLF by tauto.
  destruct (Ascii.eqb_spec cr c) as [<- | _]; [tauto | reflexivity].
Qed.

(** Replacing LF by CR LF and then CR LF by LF gives back a string that
    has no carriage return. *)
Lemma replace_scan_roundtrip s :
  ~ In cr (list_ascii_of_string s) ->
  strings.replace_scan CRLF LF O (strings.replace_scan LF CRLF O s) = s.
Proof.
  induction s as [| c rest IH]; [reflexivity |].
  cbn [list_ascii_of_string In]. intros Hfree.
  specialize (IH ltac:(tauto)).
  rewrite replace_scan_cons, prefix_LF.
  destruct (Ascii.eqb_spec lf c) as [<- | Hlf].
  - change (CRLF +:+ ?x) with (String cr (String lf x)).
    change (pred (String.length LF)) with O.
    rewrite replace_scan_cons, prefix_CRLF, prefix_LF, !Ascii.eqb_refl.
    change (LF +:+ ?x) with (String lf x).
    change (pred (String.length CRLF)) with 1%nat.
    cbn [andb strings.replace_scan]. rewrite IH. reflexivity.
  - rewrite replace_scan_cons, prefix_CRLF.
    destruct (Ascii.eqb_spec cr c) as [<- | _]; [tauto |].
    cbn [andb]. rewrite IH. reflexivity.
Qed.

(** C10: on a string without carriage return, [ToWindowsLineEndings]
    followed by [ToUnixLineEndings] gives the string back. *)
Theorem line_endings_roundtrip s :
  ~ In cr (list_ascii_of_string s) ->
  fst (fsext.ToUnixLineEndings (fst (fsext.ToWindowsLineEndings s))) = s.
Proof.
  intros Hfree.
  unfold fsext.ToWindowsLineEndings.
  rewrite (no_cr_no_crlf s Hfree). cbn [negb fst].
  unfold fsext.ToUnixLineEndings, strings.ReplaceAll.
  change (match LF with EmptyString => _ | String _ _ => ?x end) with x.
  change (match CRLF with EmptyString => _ | String _ _ => ?x end) with x.
  destruct (strings.Contains _ CRLF) eqn:Hcrlf; cbn [fst].
  - apply replace_scan_roundtrip, Hfree.
  - rewrite <- (replace_scan_absent CRLF LF _ ltac:(discriminate) Hcrlf).
    apply replace_scan_roundtrip, Hfree.
Qed.

Lemma line_endings_roundtrip_witness :
  let s := "a" +:+ LF +:+ "b" +:+ LF in
  fsext.ToWindowsLineEndings s = ("a" +:+ CRLF +:+ "b" +:+ CRLF, true) /\
  fst (fsext.ToUnixLineEndings (fst (fsext.ToWindowsLineEndings s))) = s.
Proof.
  cbv zeta. split; [reflexivity |].
  apply line_endings_roundtrip.
  vm_compute. intros Hin.
  repeat destruct Hin as [Hin | Hin]; try discriminate Hin; exact Hin.
Defined.

(** A string that already holds a carriage return need not come back. *)
Lemma line_endings_roundtrip_needs_no_cr :
  fst (fsext.ToUnixLineEndings (fst (fsext.ToWindowsLineEndings CRLF))) = LF.
Proof. reflexivity. Qed.

End LineEndings.

(** * What a call of [Run] does and does not do *)

Module WriteToolEffects.

Import tools WriteToolSpec.

(** Settles the answer of the broker from the test made on it. *)
Ltac granted_or_not :=
  repeat match goal with
         | E : negb ?b = true |- _ =>
             is_var b; destruct b; [discriminate E | clear E]
         | E : negb ?b = false |- _ =>
             is_var b; destruct b; [clear E | discriminate E]
         end.

Lemma ends_after {A : Type} (x : A) (l t : list A) :
  (exists before, l = before ++ t) -> exists before, x :: l = before ++ t.
Proof. intros [before ->]. exists (x :: before). reflexivity. Qed.

(** Finds the given end of a concrete list. *)
Ltac ends_with :=
  repeat first [ exists []; reflexivity | apply ends_after ].

Section Run.
Context {FS T H P L : Type}.
Context {fsys : os.FileSystem FS} {paths : filepath.Paths}
        {tracker : FileTracker T} {hist : history.Service H}
        {broker : permission.Service P WritePermissionsParams.t}
        {diags : Diagnostics L} {differ : diff.Engine} {rt : Runtime}.

Implicit Types (w : writeTool) (ctx : Context.t) (call : ToolCall.t).
Implicit Types (world : @World FS T H P L).

(** X1: a content-error response comes without any effect: the error is
    nil, the world is what it was and the call left no event, so that no
    directory was made, no permission asked and nothing written. *)
Theorem Run_content_error_no_effect w ctx call world response err world'
    events :
  Run w ctx call world = (response, err, world', events) ->
  ToolResponse.IsError response = true ->
  err = None /\ world' = world /\ events = [].
Proof.
  intros HRun Herror.
  run_paths HRun; try discriminate Herror; repeat split; reflexivity.
Qed.

(** X2: parameters that do not pass validation are answered from the input
    alone, in every world and without touching it: a parsing failure with
    the text of the error, an empty [file_path] before anything is said of
    the content, an empty content after that. *)
Theorem Run_invalid_parameters w ctx call world :
  let answer msg := (NewTextErrorResponse msg, None, world, []) in
  match json_Unmarshal (ToolCall.Input call) with
  | inr e =>
      Run w ctx call world =
        answer ("error parsing parameters: " +:+ Error e)
  | inl params =>
      (WriteParams.FilePath params = "" ->
       Run w ctx call world = answer "file_path is required") /\
      (WriteParams.FilePath params <> "" ->
       WriteParams.Content params = "" ->
       Run w ctx call world = answer "content is required")
  end.
Proof.
  cbv zeta. unfold_run.
  destruct (json_Unmarshal (ToolCall.Input call)) as [params | e];
    [| reflexivity].
  split.
  - intros ->. reflexivity.
  - intros Hpath ->. apply String.eqb_neq in Hpath. rewrite Hpath.
    reflexivity.
Qed.

(** X3: a target that is a directory is answered with a content error that
    names it, and a target whose [Stat] fails for another reason than its
    absence is answered with the wrapped error and the zero response; in
    both cases the world is what it was and the call left no event. *)
Theorem Run_unusable_target w ctx call world params :
  json_Unmarshal (ToolCall.Input call) = inl params ->
  WriteParams.FilePath params <> "" ->
  WriteParams.Content params <> "" ->
  let filePath := resolve w (WriteParams.FilePath params) in
  (forall info,
     os.Stat (fs world) filePath = inl info ->
     os.IsDir info = true ->
     Run w ctx call world =
       (NewTextErrorResponse
          ("Path is a directory, not a file: " +:+ filePath),
        None, world, [])) /\
  (forall e,
     os.Stat (fs world) filePath = inr e ->
     os.IsNotExist e = false ->
     Run w ctx call world =
       (ToolResponse.zero, Some (Errorf "error checking file" e), world, [])).
Proof.
  intros Hparams Hpath Hcontent filePath. subst filePath.
  unfold_run. rewrite Hparams.
  apply String.eqb_neq in Hpath, Hcontent. rewrite Hpath, Hcontent.
  cbn beta iota zeta.
  split; intros x Hstat Hcase; rewrite Hstat, Hcase; reflexivity.
Qed.

(** X4: the errors of [Run] are six, and each comes with its own trace: a
    failed [Stat] before any event; a failed [MkdirAll] as the only event;
    the missing session or message id once the directories are made; the
    denial after the request; a failed write after the granted request; a
    failed creation of the first version after the write. *)
Theorem Run_error_causes w ctx call world response e world' events :
  Run w ctx call world = (response, Some e, world', events) ->
  (exists c,
     e = Errorf "error checking file" c /\ os.IsNotExist c = false /\
     events = [] /\ world' = world) \/
  (exists dir c,
     e = Errorf "error creating directory" c /\
     events = [MadeDirs dir (Some c)]) \/
  (exists dir,
     e = errors_New "session_id and message_id are required" /\
     events = [MadeDirs dir None]) \/
  (exists dir req,
     e = ErrorPermissionDenied /\
     events = [MadeDirs dir None; Requested req false]) \/
  (exists dir req path content c,
     e = Errorf "error writing file" c /\
     events = [MadeDirs dir None; Requested req true;
               WroteFile path content (Some c)]) \/
  (exists dir req path content sessionID old c,
     e = Errorf "error creating file history" c /\
     events = [MadeDirs dir None; Requested req true;
               WroteFile path content None;
               HistoryCreate sessionID path old (Some c)]).
Proof.
  intros HRun.
  run_paths HRun.
  all: granted_or_not.
  all: cbn [app snd].
  all: first
         [ left; eexists; split; [reflexivity |];
           split; [apply negb_true_iff; assumption |]; split; reflexivity
         | right; left; do 2 eexists; split; reflexivity
         | do 2 right; left; eexists; split; reflexivity
         | do 3 right; left; do 2 eexists; split; reflexivity
         | do 4 right; left; do 5 eexists; split; reflexivity
         | do 5 right; do 7 eexists; split; reflexivity ].
Qed.

(** X5: when [MkdirAll] fails, [Run] answers the zero response with the
    wrapped error; the failed call is the only event, and the history, the
    tracker, the broker and the diagnostics state are what they were. *)
Theorem Run_mkdir_failure w ctx call world response err world' events dir c :
  Run w ctx call world = (response, err, world', events) ->
  In (MadeDirs dir (Some c)) events ->
  response = ToolResponse.zero /\
  err = Some (Errorf "error creating directory" c) /\
  events = [MadeDirs dir (Some c)] /\
  os.MkdirAll (fs world) dir = (fs world', Some c) /\
  files world' = files world /\
  fileRecords world' = fileRecords world /\
  permissions world' = permissions world /\
  lspClients world' = lspClients world.
Proof.
  intros HRun Hmade.
  run_paths HRun; which_event Hmade.
  all: injection Hmade as <- <-.
  all: cbn [app fs files fileRecords permissions lspClients with_fs].
  all: match goal with
       | E : os.MkdirAll _ _ = _ |- _ => rewrite E
       end.
  all: repeat split; reflexivity.
Qed.

(** X6: a call whose context lacks the session id or the message id never
    succeeds, asks no permission and writes nothing: its only possible
    event is the creation of the parent directories, after which it
    answers that both ids are required. *)
Theorem Run_missing_session w ctx call world response err world' events :
  fst (GetContextValues ctx) = "" \/ snd (GetContextValues ctx) = "" ->
  Run w ctx call world = (response, err, world', events) ->
  (ToolResponse.IsError response = true \/ err <> None) /\
  (forall ev, In ev events -> exists dir r, ev = MadeDirs dir r) /\
  (forall dir, In (MadeDirs dir None) events ->
     err = Some (errors_New "session_id and message_id are required")) /\
  files world' = files world /\
  fileRecords world' = fileRecords world /\
  permissions world' = permissions world /\
  lspClients world' = lspClients world.
Proof.
  intros Hids HRun.
  assert (Htest :
            String.eqb (fst (GetContextValues ctx)) ""
            || String.eqb (snd (GetContextValues ctx)) "" = true).
  { destruct Hids as [-> | ->]; [reflexivity | apply orb_true_r]. }
  unfold_run.
  destruct (GetContextValues ctx) as [sessionID messageID] eqn:Hctx.
  cbn [fst snd] in Htest.
  run_paths HRun.
  all: try discriminate Htest.
  all: try match goal with
           | E : String.eqb ?a "" || String.eqb ?b "" = false |- _ =>
               rewrite E in Htest; discriminate Htest
           end.
  all: cbn [app files fileRecords permissions lspClients with_fs].
  all: split; [first [left; reflexivity | right; discriminate] |].
  all: split;
    [intros ev Hev; which_event Hev; subst ev; do 2 eexists; reflexivity |].
  all: split;
    [intros dir' Hdir; which_event Hdir; reflexivity |].
  all: repeat split; reflexivity.
Qed.

(** X7: nothing is written without a granted request: a write is the third
    event of its call, after the parent directories of its path were made
    and a request for that path and that content was granted, and it
    writes the content of the parameters to the resolved path. *)
Theorem Run_write_needs_grant w ctx call world response err world' events
    path content r params :
  Run w ctx call world = (response, err, world', events) ->
  In (WroteFile path content r) events ->
  json_Unmarshal (ToolCall.Input call) = inl params ->
  path = resolve w (WriteParams.FilePath params) /\
  content = WriteParams.Content params /\
  exists req rest,
    events =
      MadeDirs (filepath.Dir path) None :: Requested req true
      :: WroteFile path content r :: rest /\
    WritePermissionsParams.FilePath (permission.Params req) = path /\
    WritePermissionsParams.NewContent (permission.Params req) = content.
Proof.
  intros HRun Hwrote Hparams.
  unfold_run. rewrite Hparams in HRun.
  run_paths HRun; which_event Hwrote.
  all: injection Hwrote as <- <- <-.
  all: granted_or_not.
  all: split; [reflexivity |]; split; [reflexivity |].
  all: do 2 eexists; cbn [app]; split; [reflexivity |]; split; reflexivity.
Qed.

(** X8: when the write fails, [Run] answers the zero response with the
    wrapped error, and the call ends there: the history, the tracker and
    the diagnostics state are what they were. *)
Theorem Run_write_failure w ctx call world response err world' events
    path content c :
  Run w ctx call world = (response, err, world', events) ->
  In (WroteFile path content (Some c)) events ->
  response = ToolResponse.zero /\
  err = Some (Errorf "error writing file" c) /\
  (exists req,
     events = [MadeDirs (filepath.Dir path) None; Requested req true;
               WroteFile path content (Some c)]) /\
  files world' = files world /\
  fileRecords world' = fileRecords world /\
  lspClients world' = lspClients world.
Proof.
  intros HRun Hwrote.
  run_paths HRun; which_event Hwrote.
  all: injection Hwrote as <- <- <-.
  all: granted_or_not.
  all: cbn [app files fileRecords permissions lspClients with_fs
              with_permissions].
  all: split; [reflexivity |]; split; [reflexivity |].
  all: split; [eexists; reflexivity |].
  all: repeat split; reflexivity.
Qed.

(** X9: a successful call leaves the file system as the write of the
    content to the resolved path left it, once the parent directories were
    made; it records the write and then the read of the path in the
    tracker, waits for the diagnostics of the path, and does these three
    last, in this order. *)
Theorem Run_success_effects w ctx call world response world' events params :
  Run w ctx call world = (response, None, world', events) ->
  ToolResponse.IsError response = false ->
  json_Unmarshal (ToolCall.Input call) = inl params ->
  let filePath := resolve w (WriteParams.FilePath params) in
  let made := fst (os.MkdirAll (fs world) (filepath.Dir filePath)) in
  fs world' =
    fst (os.WriteFile made filePath (WriteParams.Content params)) /\
  fileRecords world' =
    recordFileRead (recordFileWrite (fileRecords world) filePath) filePath /\
  lspClients world' = waitForLspDiagnostics (lspClients world) filePath /\
  exists before,
    events =
      before ++ [RecordedWrite filePath; RecordedRead filePath;
                 WaitedForDiagnostics filePath].
Proof.
  intros HRun Hok Hparams filePath made. subst filePath made.
  unfold_run. rewrite Hparams in HRun.
  run_paths HRun; try discriminate Hok.
  all: world_simpl_goal.
  all: repeat match goal with
              | E : os.MkdirAll _ _ = _ |- _ => rewrite E; clear E
              | E : os.WriteFile _ _ _ = _ |- _ => rewrite E; clear E
              end.
  all: cbn [fst].
  all: split; [reflexivity |]; split; [reflexivity |];
    split; [reflexivity |].
  all: cbn [app]; ends_with.
Qed.



(** X10: [Run] asks for permission at most once in a call, as its second
    event; the request carries the session of the context, which is not
    empty, the id of the call, the name and the action of the tool, the
    resolved path in its description, and as parameters the resolved path,
    the captured old content and the content to be written. *)
Theorem Run_request_contents w ctx call world response err world' events
    req granted params :
  Run w ctx call world = (response, err, world', events) ->
  In (Requested req granted) events ->
  json_Unmarshal (ToolCall.Input call) = inl params ->
  let filePath := resolve w (WriteParams.FilePath params) in
  permission.SessionID req = fst (GetContextValues ctx) /\
  fst (GetContextValues ctx) <> "" /\
  snd (GetContextValues ctx) <> "" /\
  permission.ToolCallID req = ToolCall.ID call /\
  permission.ToolName req = "write" /\
  permission.Action req = "write" /\
  permission.Description req = "Create file " +:+ filePath /\
  permission.Params req =
    {| WritePermissionsParams.FilePath := filePath;
       WritePermissionsParams.OldContent := capturedContent world filePath;
       WritePermissionsParams.NewContent := WriteParams.Content params |} /\
  (exists rest,
     events =
       MadeDirs (filepath.Dir filePath) None :: Requested req granted
       :: rest) /\
  (forall req' granted',
     In (Requested req' granted') events ->
     req' = req /\ granted' = granted).
Proof.
  intros HRun Hreq Hparams filePath. subst filePath.
  unfold capturedContent.
  unfold_run. rewrite Hparams in HRun.
  run_paths HRun; which_event Hreq.
  all: injection Hreq as <- <-.
  all: cbn [permission.SessionID permission.ToolCallID permission.ToolName
              permission.Action permission.Description permission.Params
              fst snd app negb].
  all: repeat match goal with
              | E : os.MkdirAll _ _ = _ |- _ => rewrite E; clear E
              | E : os.ReadFile _ _ = _ |- _ => rewrite E; clear E
              end.
  all: cbn [fst].
  all: match goal with
       | E : String.eqb ?a "" || String.eqb ?b "" = false |- _ =>
           apply orb_false_elim in E; destruct E as [Hsession Hmessage];
           apply String.eqb_neq in Hsession, Hmessage
       end.
  all: split; [reflexivity |]; split; [assumption |];
    split; [assumption |].
  all: do 4 (split; [reflexivity |]).
  all: split; [reflexivity |].
  all: split; [eexists; reflexivity |].
  all: intros req' granted' Hother; which_event Hother;
    injection Hother as <- <-; split; reflexivity.
Qed.

(** X11: the calls that a successful [Run] makes on the history store, in
    order: the creation of the first version with the captured old content
    when the lookup of the path in the session failed; then a version with
    the captured old content when it differs from the content of the file
    that the lookup gave, the zero file of a failed lookup included; then
    the version with the written content.  Every call is for the session
    of the context and the resolved path. *)
Theorem Run_history_calls w ctx call world response world' events params :
  Run w ctx call world = (response, None, world', events) ->
  ToolResponse.IsError response = false ->
  json_Unmarshal (ToolCall.Input call) = inl params ->
  let filePath := resolve w (WriteParams.FilePath params) in
  let sessionID := fst (GetContextValues ctx) in
  let old := capturedContent world filePath in
  let looked :=
    history.GetByPathAndSession (files world) filePath sessionID in
  exists r1 r2,
    trace.historyCalls events =
      (match snd looked with
       | Some _ => [HistoryCreate sessionID filePath old None]
       | None => []
       end)
      ++ (if String.eqb (history.Content (fst looked)) old then []
          else [HistoryCreateVersion sessionID filePath old r1])
      ++ [HistoryCreateVersion sessionID filePath
            (WriteParams.Content params) r2].
Proof.
  intros HRun Hok Hparams filePath sessionID old looked.
  subst filePath sessionID old looked.
  unfold capturedContent.
  unfold_run. rewrite Hparams in HRun.
  run_paths HRun; try discriminate Hok.
  all: cbn [fst snd negb].
  all: repeat (match goal with
               | E : os.MkdirAll _ _ = _ |- _ => rewrite E; clear E
               | E : os.ReadFile _ _ = _ |- _ => rewrite E; clear E
               | E : history.GetByPathAndSession _ _ _ = _ |- _ =>
                   rewrite E; clear E
               | E : negb (String.eqb _ _) = _ |- _ =>
                   apply (f_equal negb) in E; rewrite negb_involutive in E;
                   cbn [negb] in E; rewrite E; clear E
               end; cbn [fst snd negb]).
  all: cbn [fst snd app trace.historyCalls List.filter trace.isHistoryCall].
  all: first [ exists None, None; reflexivity
             | exists None; eexists; reflexivity
             | eexists; exists None; reflexivity
             | eexists; eexists; reflexivity ].
Qed.

End Run.

(** ** The cases, run *)

Lemma Run_content_error_no_effect_witness :
  let before := scenario.world [broker.allow_once] in
  let r := scenario.run "stale" before in
  ToolResponse.IsError (scenario.response_of r) = true /\
  scenario.error_of r = None /\
  scenario.world_of r = before /\
  scenario.events_of r = [].
Proof.
  cbv zeta. split; [vm_compute; reflexivity |].
  eapply (Run_content_error_no_effect
           (paths := unixpath.paths) (differ := doubles.differ)
           (rt := doubles.runtime scenario.inputs)
           scenario.tool scenario.ctx (scenario.call "stale")
           (scenario.world [broker.allow_once])).
  - apply outcome_parts.
  - vm_compute; reflexivity.
Defined.

Lemma Run_unusable_target_witness :
  cases.run_on scenario.ctx "noop" (cases.world_on cases.crowded []) =
    (NewTextErrorResponse "Path is a directory, not a file: /w/c.txt",
     None, cases.world_on cases.crowded [], []) /\
  cases.run_on scenario.ctx "overwrite" (cases.world_on cases.guarded []) =
    (ToolResponse.zero,
     Some (Errorf "error checking file"
             (errors_New "stat /w/f.txt: permission denied")),
     cases.world_on cases.guarded [], []).
Proof.
  split.
  - refine (proj1
              (Run_unusable_target
                 (paths := unixpath.paths) (differ := doubles.differ)
                 (rt := doubles.runtime scenario.inputs)
                 scenario.tool scenario.ctx (scenario.call "noop")
                 (cases.world_on cases.crowded [])
                 (scenario.params "/w/c.txt" "x") _ _ _)
              {| os.IsDir := true; os.ModTime := 3 |} _ _);
      first [discriminate | vm_compute; reflexivity].
  - refine (proj2
              (Run_unusable_target
                 (paths := unixpath.paths) (differ := doubles.differ)
                 (rt := doubles.runtime scenario.inputs)
                 scenario.tool scenario.ctx (scenario.call "overwrite")
                 (cases.world_on cases.guarded [])
                 (scenario.params "/w/f.txt" "new") _ _ _)
              (errors_New "stat /w/f.txt: permission denied") _ _);
      first [discriminate | vm_compute; reflexivity].
Defined.

Lemma Run_error_causes_witness :
  let r := scenario.run "nested" (scenario.world [broker.deny]) in
  scenario.error_of r = Some ErrorPermissionDenied /\
  exists dir req,
    scenario.events_of r = [MadeDirs dir None; Requested req false].
Proof.
  intros r.
  assert (Herr : scenario.error_of r = Some ErrorPermissionDenied)
    by (vm_compute; reflexivity).
  split; [exact Herr |].
  destruct (Run_error_causes
              (paths := unixpath.paths) (differ := doubles.differ)
              (rt := doubles.runtime scenario.inputs)
              scenario.tool scenario.ctx (scenario.call "nested")
              (scenario.world [broker.deny])
              (scenario.response_of r) ErrorPermissionDenied
              (scenario.world_of r) (scenario.events_of r))
    as [(c & He & _) | [(dir & c & He & _) | [(dir & He & _)
       | [(dir & req & _ & Hevents) | [(dir & req & p & x & c & He & _)
       | (dir & req & p & x & s & old & c & He & _)]]]]];
    try discriminate He.
  - etransitivity; [apply outcome_parts |].
    apply (f_equal (fun e => (_, e, _, _))). exact Herr.
  - exists dir, req. exact Hevents.
Defined.

Lemma Run_mkdir_failure_witness :
  let before := cases.world_on cases.crowded [broker.allow_once] in
  let r := cases.run_on scenario.ctx "nested" before in
  let refusal := errors_New "mkdir /w/sub: not a directory" in
  In (MadeDirs "/w/sub" (Some refusal)) (scenario.events_of r) /\
  scenario.response_of r = ToolResponse.zero /\
  scenario.error_of r = Some (Errorf "error creating directory" refusal) /\
  scenario.events_of r = [MadeDirs "/w/sub" (Some refusal)] /\
  permissions (scenario.world_of r) = permissions before.
Proof.
  intros before r refusal.
  assert (Hmade : In (MadeDirs "/w/sub" (Some refusal)) (scenario.events_of r))
    by (vm_compute; auto).
  split; [exact Hmade |].
  destruct (Run_mkdir_failure
              (paths := unixpath.paths) (differ := doubles.differ)
              (rt := doubles.runtime scenario.inputs)
              scenario.tool scenario.ctx (scenario.call "nested") before
              _ _ _ _ _ _ (outcome_parts r) Hmade)
    as (Hresponse & Herr & Hevents & _ & _ & _ & Hbroker & _).
  repeat split; assumption.
Defined.

Lemma Run_missing_session_witness :
  let before := scenario.world [broker.allow_once] in
  let r := cases.run_on cases.anonymous "fresh" before in
  fst (GetContextValues cases.anonymous) = "" /\
  scenario.error_of r =
    Some (errors_New "session_id and message_id are required") /\
  (forall ev, In ev (scenario.events_of r) -> exists dir e, ev = MadeDirs dir e)
  /\ files (scenario.world_of r) = files before.
Proof.
  intros before r.
  split; [reflexivity |].
  destruct (Run_missing_session
              (paths := unixpath.paths) (differ := doubles.differ)
              (rt := doubles.runtime scenario.inputs)
              scenario.tool cases.anonymous (scenario.call "fresh") before
              _ _ _ _ (or_introl eq_refl) (outcome_parts r))
    as (_ & Honly & Herr & Hfiles & _).
  split; [apply (Herr "/w"); vm_compute; auto |].
  split; [exact Honly | exact Hfiles].
Defined.

Lemma Run_write_needs_grant_witness :
  let r := scenario.run "fresh" (scenario.world [broker.allow_once]) in
  In (WroteFile "/w/a.txt" ("hello" +:+ LF) None) (scenario.events_of r) /\
  exists req rest,
    scenario.events_of r =
      MadeDirs "/w" None :: Requested req true
      :: WroteFile "/w/a.txt" ("hello" +:+ LF) None :: rest /\
    WritePermissionsParams.FilePath (permission.Params req) = "/w/a.txt" /\
    WritePermissionsParams.NewContent (permission.Params req) =
      "hello" +:+ LF.
Proof.
  intros r.
  assert (Hwrote :
            In (WroteFile "/w/a.txt" ("hello" +:+ LF) None)
               (scenario.events_of r))
    by (vm_compute; auto).
  split; [exact Hwrote |].
  destruct (Run_write_needs_grant
              (paths := unixpath.paths) (differ := doubles.differ)
              (rt := doubles.runtime scenario.inputs)
              scenario.tool scenario.ctx (scenario.call "fresh")
              (scenario.world [broker.allow_once])
              _ _ _ _ _ _ _ (scenario.params "a.txt" ("hello" +:+ LF))
              (outcome_parts r) Hwrote eq_refl)
    as (_ & _ & req & rest & Hevents & Hpath & Hcontent).
  exists req, rest. repeat split; assumption.
Defined.

Lemma Run_write_failure_witness :
  let before := cases.world_on cases.guarded [broker.allow_once] in
  let r := cases.run_on scenario.ctx "edit" before in
  let refusal := errors_New "open /w/d.txt: read-only file system" in
  In (WroteFile "/w/d.txt" "v2" (Some refusal)) (scenario.events_of r) /\
  scenario.response_of r = ToolResponse.zero /\
  scenario.error_of r = Some (Errorf "error writing file" refusal) /\
  files (scenario.world_of r) = files before /\
  fileRecords (scenario.world_of r) = fileRecords before.
Proof.
  intros before r refusal.
  assert (Hwrote :
            In (WroteFile "/w/d.txt" "v2" (Some refusal))
               (scenario.events_of r))
    by (vm_compute; auto).
  split; [exact Hwrote |].
  destruct (Run_write_failure
              (paths := unixpath.paths) (differ := doubles.differ)
              (rt := doubles.runtime scenario.inputs)
              scenario.tool scenario.ctx (scenario.call "edit") before
              _ _ _ _ _ _ _ (outcome_parts r) Hwrote)
    as (Hresponse & Herr & _ & Hfiles & Hrecords & _).
  repeat split; assumption.
Defined.

Lemma Run_success_effects_witness :
  let before := scenario.world [broker.allow_once] in
  let r := scenario.run "fresh" before in
  os.ReadFile (fs (scenario.world_of r)) "/w/a.txt" = inl ("hello" +:+ LF) /\
  getLastReadTime (fileRecords (scenario.world_of r)) "/w/a.txt" = 101 /\
  exists earlier,
    scenario.events_of r =
      earlier ++ [RecordedWrite "/w/a.txt"; RecordedRead "/w/a.txt";
                  WaitedForDiagnostics "/w/a.txt"].
Proof.
  intros before r.
  destruct (Run_success_effects
              (paths := unixpath.paths) (differ := doubles.differ)
              (rt := doubles.runtime scenario.inputs)
              scenario.tool scenario.ctx (scenario.call "fresh") before
              (scenario.response_of r) (scenario.world_of r)
              (scenario.events_of r)
              (scenario.params "a.txt" ("hello" +:+ LF)))
    as (Hfs & Hrecords & _ & Hlast).
  - etransitivity; [apply outcome_parts |].
    apply (f_equal (fun e => (_, e, _, _))). vm_compute; reflexivity.
  - vm_compute; reflexivity.
  - vm_compute; reflexivity.
  - split; [rewrite Hfs; vm_compute; reflexivity |].
    split; [rewrite Hrecords; vm_compute; reflexivity |].
    exact Hlast.
Defined.

Lemma Run_request_contents_witness :
  let r := scenario.run "nested" (scenario.world [broker.deny]) in
  In (Requested scenario.nested_request false) (scenario.events_of r) /\
  permission.SessionID scenario.nested_request = "s" /\
  permission.Params scenario.nested_request =
    {| WritePermissionsParams.FilePath := "/w/sub/a.txt";
       WritePermissionsParams.OldContent := "";
       WritePermissionsParams.NewContent := "hello" |} /\
  forall req granted,
    In (Requested req granted) (scenario.events_of r) ->
    req = scenario.nested_request /\ granted = false.
Proof.
  intros r.
  assert (Hasked :
            In (Requested scenario.nested_request false)
               (scenario.events_of r))
    by (vm_compute; auto).
  split; [exact Hasked |].
  destruct (Run_request_contents
              (paths := unixpath.paths) (differ := doubles.differ)
              (rt := doubles.runtime scenario.inputs)
              scenario.tool scenario.ctx (scenario.call "nested")
              (scenario.world [broker.deny])
              _ _ _ _ _ _ (scenario.params "sub/a.txt" "hello")
              (outcome_parts r) Hasked eq_refl)
    as (Hsession & _ & _ & _ & _ & _ & _ & _ & _ & Honce).
  split; [reflexivity |]. split; [reflexivity | exact Honce].
Defined.

Lemma Run_history_calls_witness :
  let r := scenario.run "overwrite" (scenario.world [broker.allow_once]) in
  exists r1 r2,
    trace.historyCalls (scenario.events_of r) =
      [HistoryCreate "s" "/w/f.txt" "old" None;
       HistoryCreateVersion "s" "/w/f.txt" "old" r1;
       HistoryCreateVersion "s" "/w/f.txt" "new" r2].
Proof.
  intros r.
  destruct (Run_history_calls
              (paths := unixpath.paths) (differ := doubles.differ)
              (rt := doubles.runtime scenario.inputs)
              scenario.tool scenario.ctx (scenario.call "overwrite")
              (scenario.world [broker.allow_once])
              (scenario.response_of r) (scenario.world_of r)
              (scenario.events_of r)
              (scenario.params "/w/f.txt" "new"))
    as (r1 & r2 & Hcalls).
  - etransitivity; [apply outcome_parts |].
    apply (f_equal (fun e => (_, e, _, _))). vm_compute; reflexivity.
  - vm_compute; reflexivity.
  - vm_compute; reflexivity.
  - exists r1, r2. rewrite Hcalls. vm_compute; reflexivity.
Defined.

End WriteToolEffects.

(** * More on the line endings *)

Module LineEndingsFlags.

Import LineEndings.

Lemma prefix_Contains p s :
  String.prefix p s = true -> strings.Contains s p = true.
Proof.
  destruct s as [| c rest]; cbn [strings.Contains]; intros ->; reflexivity.
Qed.

(** No line feed, hence no CR LF. *)
Lemma no_lf_no_crlf s :
  strings.Contains s LF = false -> strings.Contains s CRLF = false.
Proof.
  induction s as [| c rest IH]; [reflexivity |].
  cbn [strings.Contains]. intros Hfree.
  apply orb_false_iff in Hfree as [_ Hrest].
  rewrite (IH Hrest), prefix_CRLF.
  destruct (String.prefix LF rest) eqn:Hlf.
  - apply prefix_Contains in Hlf. congruence.
  - rewrite andb_false_r. reflexivity.
Qed.

(** What [ReplaceAll] makes of the line feeds never begins with one. *)
Lemma prefix_LF_replaced s :
  String.prefix LF (strings.replace_scan LF CRLF O s) = false.
Proof.
  destruct s as [| c rest]; [reflexivity |].
  rewrite replace_scan_cons, prefix_LF.
  destruct (Ascii.eqb_spec lf c) as [<- | Hlf].
  - reflexivity.
  - rewrite prefix_LF. apply Ascii.eqb_neq, Hlf.
Qed.

(** After the line feeds are replaced there is a CR LF exactly when there
    was a line feed. *)
Lemma Contains_CRLF_replaced s :
  strings.Contains (strings.replace_scan LF CRLF O s) CRLF =
  strings.Contains s LF.
Proof.
  induction s as [| c rest IH]; [reflexivity |].
  rewrite replace_scan_cons. cbn [strings.Contains]. rewrite prefix_LF.
  destruct (Ascii.eqb_spec lf c) as [<- | Hlf].
  - change (CRLF +:+ ?x) with (String cr (String lf x)).
    cbn [strings.Contains]. rewrite prefix_CRLF, prefix_LF, !Ascii.eqb_refl.
    reflexivity.
  - cbn [strings.Contains orb].
    rewrite prefix_CRLF, prefix_LF_replaced, andb_false_r, IH.
    reflexivity.
Qed.

(** The scan for CR LF never makes a string longer, whether it starts on
    a byte or behind the carriage return of an occurrence, and from a byte
    on it makes a string with a CR LF shorter. *)
Lemma replace_scan_CRLF_length s :
  (String.length (strings.replace_scan CRLF LF 1 s)
   <= pred (String.length s))%nat /\
  (String.length (strings.replace_scan CRLF LF O s) <= String.length s)%nat /\
  (strings.Contains s CRLF = true ->
   String.length (strings.replace_scan CRLF LF O s) < String.length s)%nat.
Proof.
  induction s as [| c rest (IH1 & IH0 & IHlt)].
  - repeat split; [reflexivity | reflexivity | discriminate].
  - split; [cbn [strings.replace_scan String.length pred]; exact IH0 |].
    rewrite replace_scan_cons. cbn [strings.Contains].
    destruct (String.prefix CRLF (String c rest)) eqn:Hhere.
    + change (LF +:+ ?x) with (String lf x).
      change (pred (String.length CRLF)) with 1%nat.
      rewrite prefix_CRLF in Hhere. apply andb_prop in Hhere as [_ Hlf].
      destruct rest as [| c' rest']; [discriminate Hlf |].
      cbn [String.length pred] in *.
      split; [lia | intros _; lia].
    + cbn [String.length orb]. split; [lia |]. intros Hlater.
      specialize (IHlt Hlater). lia.
Qed.

(** X12: [ToUnixLineEndings] never makes the content longer, and it reports
    a conversion exactly when it changed the content, which is then
    shorter. *)
Theorem ToUnixLineEndings_reports_change s :
  let r := fsext.ToUnixLineEndings s in
  (String.length (fst r) <= String.length s)%nat /\
  (snd r = true <-> fst r <> s) /\
  (snd r = true -> (String.length (fst r) < String.length s)%nat).
Proof.
  cbv zeta. unfold fsext.ToUnixLineEndings, strings.ReplaceAll.
  change (match CRLF with EmptyString => _ | String _ _ => ?x end) with x.
  destruct (replace_scan_CRLF_length s) as (_ & Hle & Hlt).
  destruct (strings.Contains s CRLF); cbn [fst snd].
  - specialize (Hlt eq_refl).
    split; [exact Hle |]. split; [| intros _; exact Hlt].
    split; [| reflexivity]. intros _ Hsame. rewrite Hsame in Hlt. lia.
  - split; [reflexivity |]. split; [| discriminate].
    split; [discriminate | congruence].
Qed.

(** X13: content without a line feed comes back from
    [ToWindowsLineEndings] as it is, and yet reported as converted. *)
Theorem ToWindowsLineEndings_without_lf s :
  strings.Contains s LF = false ->
  fsext.ToWindowsLineEndings s = (s, true).
Proof.
  intros Hfree. unfold fsext.ToWindowsLineEndings, strings.ReplaceAll.
  rewrite (no_lf_no_crlf s Hfree). cbn [negb].
  change (match LF with EmptyString => _ | String _ _ => ?x end) with x.
  rewrite replace_scan_absent by (discriminate || exact Hfree).
  reflexivity.
Qed.

Lemma ToWindowsLineEndings_without_lf_witness :
  strings.Contains "a; b" LF = false /\
  fsext.ToWindowsLineEndings "a; b" = ("a; b", true).
Proof.
  split; [reflexivity |].
  apply ToWindowsLineEndings_without_lf. reflexivity.
Defined.

(** X14: a second pass of [ToWindowsLineEndings] over its own result
    changes nothing, and it reports a conversion only for content without
    any line feed. *)
Theorem ToWindowsLineEndings_idempotent s :
  let once := fst (fsext.ToWindowsLineEndings s) in
  fst (fsext.ToWindowsLineEndings once) = once /\
  (snd (fsext.ToWindowsLineEndings once) = true ->
   strings.Contains s LF = false).
Proof.
  cbv zeta.
  assert (Hpass :
            forall t,
              fsext.ToWindowsLineEndings t =
                if strings.Contains t CRLF then (t, false)
                else (strings.replace_scan LF CRLF O t, true)).
  { intros t. unfold fsext.ToWindowsLineEndings.
    destruct (strings.Contains t CRLF); reflexivity. }
  rewrite (Hpass s).
  destruct (strings.Contains s CRLF) eqn:Hcrlf; cbn [fst].
  - rewrite (Hpass s), Hcrlf. split; [reflexivity | discriminate].
  - rewrite Hpass, Contains_CRLF_replaced.
    destruct (strings.Contains s LF) eqn:Hlf; cbn [fst snd].
    + split; [reflexivity | discriminate].
    + rewrite (replace_scan_absent LF CRLF s) by (discriminate || exact Hlf).
      rewrite (replace_scan_absent LF CRLF s) by (discriminate || exact Hlf).
      split; reflexivity.
Qed.

End LineEndingsFlags.

(** * The file-system helpers of [fsext] *)

Module FsextSpec.

(** ** Splitting a path *)

Lemma Split_not_nil s sep : strings.Split s sep <> [].
Proof.
  destruct s as [| c rest]; cbn [strings.Split]; [discriminate |].
  destruct (Ascii.eqb c sep); [discriminate |].
  destruct (strings.Split rest sep); discriminate.
Qed.

(** The pieces of two paths joined by the separator are the pieces of the
    one followed by the pieces of the other. *)
Lemma Split_join p q sep :
  strings.Split (p +:+ String sep q) sep =
  strings.Split p sep ++ strings.Split q sep.
Proof.
  induction p as [| c rest IH].
  - change ("" +:+ String sep q) with (String sep q).
    cbn [strings.Split]. rewrite Ascii.eqb_refl. reflexivity.
  - change (String c rest +:+ String sep q)
      with (String c (rest +:+ String sep q)).
    cbn [strings.Split].
    destruct (Ascii.eqb c sep); [rewrite IH; reflexivity |].
    rewrite IH.
    destruct (strings.Split rest sep) as [| x xs] eqn:Hrest;
      [destruct (Split_not_nil _ _ Hrest) | reflexivity].
Qed.

Section Hidden.
Context {names : filepath.Names}.

Lemma ignored_component_existsb path :
  existsb (fun part => default false (fsext.commonIgnoredDirs !! part))
          (strings.Split path filepath.Separator) = true <->
  fsext.has_ignored_component path.
Proof.
  rewrite existsb_exists. unfold fsext.has_ignored_component.
  split; intros (part & Hin & Hpart); exists part; split; try assumption.
  - destruct (fsext.commonIgnoredDirs !! part) as [[] |]; try discriminate.
    reflexivity.
  - rewrite Hpart. reflexivity.
Qed.

(** X15: [SkipHidden] skips exactly the paths whose base name begins with a
    dot without being the single dot, and the paths one of whose components
    between separators is a listed directory name. *)
Theorem SkipHidden_iff path :
  fsext.SkipHidden path = true <->
  (filepath.Base path <> "." /\
   strings.HasPrefix (filepath.Base path) "." = true) \/
  fsext.has_ignored_component path.
Proof.
  unfold fsext.SkipHidden. cbv zeta.
  rewrite <- ignored_component_existsb.
  destruct (String.eqb_spec (filepath.Base path) ".") as [Hdot | Hdot];
    cbn [negb andb].
  - split; [tauto |]. intros [[Hne _] | Hlisted]; [contradiction | exact Hlisted].
  - destruct (strings.HasPrefix (filepath.Base path) ".");
      split; try tauto.
    intros [[_ Hfalse] | Hlisted]; [discriminate | exact Hlisted].
Qed.

(** X16: once a path has a listed directory name among its components,
    every path that continues it after a separator is skipped, and so is
    every path that it continues. *)
Theorem SkipHidden_below_ignored p q :
  fsext.has_ignored_component p ->
  fsext.SkipHidden (p +:+ String filepath.Separator q) = true /\
  fsext.SkipHidden (q +:+ String filepath.Separator p) = true.
Proof.
  intros (part & Hin & Hpart).
  split; unfold fsext.SkipHidden; cbv zeta;
    match goal with
    | |- (if ?c then _ else _) = _ => destruct c; [reflexivity |]
    end;
    apply ignored_component_existsb; exists part; split; try assumption;
    rewrite Split_join; apply in_or_app; [left | right]; assumption.
Qed.

End Hidden.

Section Walker.
Context {FS G : Type}.
Context {fsys : os.FileSystem FS} {paths : filepath.Paths}
        {names : filepath.Names} {ign : ignore.Library FS G}.

Implicit Types (w : @fsext.FastGlobWalker G).

(** X17: when [filepath.Rel] cannot relate a path to the root of the
    walker, the ignore files are not consulted: [ShouldSkip] answers what
    [SkipHidden] answers. *)
Theorem ShouldSkip_unrelated w path e :
  filepath.Rel (fsext.rootPath w) path = inr e ->
  fsext.ShouldSkip w path = fsext.SkipHidden path.
Proof.
  intros Hrel. unfold fsext.ShouldSkip. rewrite Hrel.
  destruct (fsext.SkipHidden path); reflexivity.
Qed.

(** X18: a walker made for a directory in which neither [.gitignore] nor
    [.crushignore] can be found skips exactly what [SkipHidden] skips. *)
Theorem ShouldSkip_without_ignore_files fs searchPath path e1 e2 :
  os.Stat fs (filepath.Join searchPath ".gitignore") = inr e1 ->
  os.Stat fs (filepath.Join searchPath ".crushignore") = inr e2 ->
  fsext.ShouldSkip (fsext.NewFastGlobWalker fs searchPath) path =
  fsext.SkipHidden path.
Proof.
  intros Hgit Hcrush. unfold fsext.ShouldSkip, fsext.NewFastGlobWalker.
  cbv zeta. rewrite Hgit, Hcrush. cbn [fsext.gitignore fsext.crushignore].
  destruct (fsext.SkipHidden path); [reflexivity |].
  destruct (filepath.Rel _ path); reflexivity.
Qed.

(** X19: a walker made for a directory whose [.gitignore] or [.crushignore]
    is there and compiles skips every path whose path relative to the
    directory the compiled file matches. *)
Theorem ShouldSkip_ignored fs searchPath path file info compiled relPath :
  file = ".gitignore" \/ file = ".crushignore" ->
  os.Stat fs (filepath.Join searchPath file) = inl info ->
  ignore.CompileIgnoreFile fs (filepath.Join searchPath file) = inl compiled ->
  filepath.Rel searchPath path = inl relPath ->
  ignore.MatchesPath compiled relPath = true ->
  fsext.ShouldSkip (fsext.NewFastGlobWalker fs searchPath) path = true.
Proof.
  intros Hfile Hstat Hcompile Hrel Hmatch.
  unfold fsext.ShouldSkip, fsext.NewFastGlobWalker. cbv zeta.
  cbn [fsext.gitignore fsext.crushignore fsext.rootPath].
  destruct (fsext.SkipHidden path); [reflexivity |].
  rewrite Hrel.
  destruct Hfile as [-> | ->]; rewrite Hstat, Hcompile, Hmatch.
  - reflexivity.
  - destruct (match os.Stat fs (filepath.Join searchPath ".gitignore") with
              | inl _ => _
              | inr _ => _
              end) as [gi |]; [destruct (ignore.MatchesPath gi relPath) |];
      reflexivity.
Qed.

End Walker.


(** ** [DirTrim] *)

Lemma append_assoc (a b c : string) : (a +:+ b) +:+ c = a +:+ b +:+ c.
Proof.
  induction a as [| x a IH]; [reflexivity |].
  change (String x ((a +:+ b) +:+ c) = String x (a +:+ b +:+ c)).
  rewrite IH. reflexivity.
Qed.

Lemma append_nil_r (a : string) : a +:+ "" = a.
Proof.
  induction a as [| x a IH]; [reflexivity |].
  change (String x (a +:+ "") = String x a). rewrite IH. reflexivity.
Qed.

(** The initials of a list that is extended at its end. *)
Lemma initials_snoc sep l d :
  fsext.initials sep (l ++ [d]) =
  match d, fsext.initials sep l with
  | String b _, Some shown => Some (shown +:+ string_of_byte b +:+ sep)
  | _, _ => None
  end.
Proof.
  induction l as [| x l IH]; cbn [app].
  - unfold fsext.initials. cbn [fold_right].
    destruct d as [| b d]; [reflexivity |].
    rewrite append_nil_r. reflexivity.
  - change (fsext.initials sep (x :: l ++ [d]))
      with (match x, fsext.initials sep (l ++ [d]) with
            | String b _, Some rest => Some (string_of_byte b +:+ sep +:+ rest)
            | _, _ => None
            end).
    change (fsext.initials sep (x :: l))
      with (match x, fsext.initials sep l with
            | String b _, Some rest => Some (string_of_byte b +:+ sep +:+ rest)
            | _, _ => None
            end).
    rewrite IH.
    destruct x as [| bx x]; destruct d as [| b d];
      destruct (fsext.initials sep l) as [shown |]; try reflexivity.
    rewrite !append_assoc. reflexivity.
Qed.

(** The initials exist unless a component is empty. *)
Lemma initials_None sep l : fsext.initials sep l = None <-> In "" l.
Proof.
  induction l as [| x l IH]; [split; [discriminate | intros []] |].
  change (fsext.initials sep (x :: l))
    with (match x, fsext.initials sep l with
          | String b _, Some rest => Some (string_of_byte b +:+ sep +:+ rest)
          | _, _ => None
          end).
  cbn [In]. destruct x as [| b x].
  - split; [left; reflexivity | reflexivity].
  - destruct (fsext.initials sep l) as [shown |].
    + split; [discriminate |]. intros [Hx | Hl]; [discriminate |].
      apply IH in Hl. discriminate.
    + split; [| reflexivity]. intros _. right. apply IH. reflexivity.
Qed.

Section Trim.
Context {paths : filepath.Paths} {names : filepath.Names}.

(** The loop from an index [k] below the last: it puts before [out] the
    initials of the components from [length dirs - lim] to [k], behind three
    dots when components are left out, and panics when one of them is
    empty. *)
Lemma DirTrim_loop_spec dirs lim k out :
  let sep := String filepath.Separator EmptyString in
  let n := length dirs in
  let m := (n - Z.to_nat lim)%nat in
  (0 < lim)%Z -> (lim <= Z.of_nat n - 1)%Z ->
  (m - 1 <= k)%nat -> (k <= n - 2)%nat ->
  fsext.DirTrim_loop dirs lim k out =
    match fsext.initials sep (take (k + 1 - m) (drop m dirs)) with
    | Some shown =>
        Some ((if (1 <? m)%nat then "..." +:+ sep else "")
              +:+ shown +:+ out)
    | None => None
    end.
Proof.
  intros sep n m Hpos Hlim. revert out.
  induction k as [| k IH]; intros out Hlow Hhigh.
  - assert (m = 1%nat) as -> by lia. reflexivity.
  - cbn [fsext.DirTrim_loop]. fold sep. fold n.
    destruct (Z.eqb_spec (Z.of_nat (S k)) (Z.of_nat n - 1)) as [Heq | _];
      [lia |].
    destruct (Z.leb_spec (Z.of_nat n - lim) (Z.of_nat (S k))) as [Hin | Hout].
    + assert (Hlook : is_Some (dirs !! S k))
        by (apply lookup_lt_is_Some; fold n; lia).
      destruct Hlook as [d Hd]. rewrite Hd. cbn [from_option id].
      replace (S k + 1 - m)%nat with (S (k + 1 - m)) by lia.
      rewrite (take_S_r _ _ d)
        by (rewrite lookup_drop; replace (m + (k + 1 - m))%nat with (S k) by lia;
            exact Hd).
      rewrite initials_snoc.
      destruct d as [| b d]; [reflexivity |].
      rewrite IH by lia.
      destruct (fsext.initials sep (take (k + 1 - m) (drop m dirs)))
        as [shown |]; [| reflexivity].
      rewrite !append_assoc. reflexivity.
    + assert (Hm : m = S (S k)) by lia.
      replace (S k + 1 - m)%nat with 0%nat by lia.
      replace (1 <? m)%nat with true by (symmetry; apply Nat.ltb_lt; lia).
      reflexivity.
Qed.

Lemma DirTrim_outside pwd lim :
  (lim <= 0)%Z \/
  (Z.of_nat (length (strings.Split pwd filepath.Separator)) <= lim)%Z ->
  fsext.DirTrim pwd lim = Some pwd.
Proof.
  intros Hrange. unfold fsext.DirTrim. cbv zeta.
  destruct (Z.ltb_spec
              (Z.of_nat (length (strings.Split pwd filepath.Separator)) - 1)
              lim); [reflexivity |].
  destruct (Z.leb_spec lim 0); [reflexivity | lia].
Qed.

Lemma DirTrim_inside pwd lim :
  let dirs := strings.Split pwd filepath.Separator in
  (0 < lim)%Z -> (lim <= Z.of_nat (length dirs) - 1)%Z ->
  fsext.DirTrim pwd lim =
    match fsext.trimmed dirs lim with
    | Some out => Some (filepath.Join "~" out)
    | None => None
    end.
Proof.
  intros dirs Hpos Hlim. unfold fsext.DirTrim, fsext.trimmed. cbv zeta.
  fold dirs.
  destruct (Z.ltb_spec (Z.of_nat (length dirs) - 1) lim); [lia |].
  destruct (Z.leb_spec lim 0); [lia |]. cbn [orb].
  destruct (length dirs) as [| [| n']] eqn:Hlen; [lia | lia |].
  replace (S (S n') - 1)%nat with (S (S n' - 1)) by lia.
  cbn [fsext.DirTrim_loop]. rewrite Hlen.
  destruct (Z.eqb_spec (Z.of_nat (S (S n' - 1))) (Z.of_nat (S (S n')) - 1));
    [| lia].
  rewrite <- Hlen.
  rewrite DirTrim_loop_spec by (rewrite ?Hlen; lia).
  rewrite Hlen.
  replace (S n' - 1 + 1 - (S (S n') - Z.to_nat lim))%nat
    with (S (S n' - 1) - (S (S n') - Z.to_nat lim))%nat by lia.
  destruct (fsext.initials _ _); reflexivity.
Qed.

(** X20: with a limit that is not positive, or not below the number of
    components of the path, [DirTrim] answers the path as it is, without the
    home sign; so it does for every path without separator. *)
Theorem DirTrim_out_of_range pwd lim :
  (lim <= 0)%Z \/
  (Z.of_nat (length (strings.Split pwd filepath.Separator)) <= lim)%Z ->
  fsext.DirTrim pwd lim = Some pwd.
Proof. apply DirTrim_outside. Qed.


(** X22: [DirTrim] panics exactly when the limit is in range and one of the
    directories to be shown by its first byte has an empty name, as after a
    doubled separator. *)
Theorem DirTrim_panics pwd lim :
  let dirs := strings.Split pwd filepath.Separator in
  let n := length dirs in
  fsext.DirTrim pwd lim = None <->
  (0 < lim)%Z /\ (lim <= Z.of_nat n - 1)%Z /\
  In "" (take (Z.to_nat lim - 1) (drop (n - Z.to_nat lim) dirs)).
Proof.
  intros dirs n.
  destruct (Z.leb_spec lim 0) as [Hnonpos | Hpos].
  { rewrite DirTrim_outside by (left; exact Hnonpos).
    split; [discriminate | lia]. }
  destruct (Z.leb_spec (Z.of_nat n) lim) as [Hbig | Hsmall].
  { rewrite DirTrim_outside by (right; exact Hbig).
    split; [discriminate | lia]. }
  rewrite DirTrim_inside by (fold dirs n; lia).
  fold dirs. unfold fsext.trimmed. cbv zeta. fold n.
  replace (n - 1 - (n - Z.to_nat lim))%nat with (Z.to_nat lim - 1)%nat by lia.
  pose proof (initials_None (String filepath.Separator "")
                (take (Z.to_nat lim - 1) (drop (n - Z.to_nat lim) dirs)))
    as Hnone.
  destruct (fsext.initials _ _) as [shown |].
  - split; [discriminate |]. intros (_ & _ & Hin).
    apply Hnone in Hin. discriminate.
  - split; [| reflexivity]. intros _.
    split; [lia |]. split; [lia |]. apply Hnone. reflexivity.
Qed.

End Trim.

(** ** [GlobWithDoubleStar] *)

Lemma StronglySorted_weaken {A : Type} (R1 R2 : A -> A -> Prop) l :
  (forall a b, R1 a b -> R2 a b) ->
  StronglySorted R1 l -> StronglySorted R2 l.
Proof.
  intros Himpl. induction 1 as [| a l Hl IH Hall]; constructor;
    [exact IH |].
  eapply Forall_impl; [exact Hall | intros b; apply Himpl].
Qed.

Lemma newer_false a b :
  fsext.newer b a = false -> (fsext.ModTime b <= fsext.ModTime a)%Z.
Proof. unfold fsext.newer. intros H. apply Z.ltb_ge in H. exact H. Qed.

(** [limit * 2] does not wrap below 2^62. *)
Lemma int_wrap_double limit :
  (0 < limit < 2 ^ 62)%Z -> int_wrap (limit * 2) = (limit * 2)%Z.
Proof.
  intros Hlimit. unfold int_wrap.
  rewrite Z.mod_small; lia.
Qed.

Section Glob.
Context {FS G : Type}.
Context {fsys : os.FileSystem FS} {paths : filepath.Paths}
        {names : filepath.Names} {ign : ignore.Library FS G}
        {matcher : doublestar.Matcher} {walking : fastwalk.Walker FS}
        {sorter : sort.Sorter}.

(** X23: when the walk ends with an error, [GlobWithDoubleStar] answers no
    path, not truncated, and the error wrapped as a fastwalk error: what
    the walk had collected is dropped. *)
Theorem GlobWithDoubleStar_walk_error fs pattern searchPath limit matches e :
  fastwalk.Walk fs searchPath
    (fsext.visit (fsext.NewFastGlobWalker fs searchPath) pattern searchPath
       limit) [] = (matches, Some e) ->
  fsext.GlobWithDoubleStar fs pattern searchPath limit =
    ([], false, Some (Errorf "fastwalk error" e)).
Proof.
  intros Hwalk. unfold fsext.GlobWithDoubleStar. cbv zeta.
  rewrite Hwalk. reflexivity.
Qed.

(** X24: when the walk ends without error, [GlobWithDoubleStar] answers the
    paths of the most recently modified of the collected matches, newest
    first: with a positive limit below their number it keeps [limit] of
    them and reports the truncation, otherwise it keeps them all; no match
    that it drops is newer than one that it keeps. *)
Theorem GlobWithDoubleStar_newest_first fs pattern searchPath limit matches :
  sort.sorts (sort.Slice (A := fsext.FileInfo)) fsext.newer ->
  fastwalk.Walk fs searchPath
    (fsext.visit (fsext.NewFastGlobWalker fs searchPath) pattern searchPath
       limit) [] = (matches, None) ->
  exists kept dropped truncated,
    fsext.GlobWithDoubleStar fs pattern searchPath limit =
      (List.map fsext.Path kept, truncated, None) /\
    Permutation (kept ++ dropped) matches /\
    StronglySorted
      (fun a b => (fsext.ModTime b <= fsext.ModTime a)%Z) kept /\
    (forall a b, In a kept -> In b dropped ->
                 (fsext.ModTime b <= fsext.ModTime a)%Z) /\
    (truncated = true <->
     (0 < limit)%Z /\ (limit < Z.of_nat (length matches))%Z) /\
    length kept =
      (if truncated then Z.to_nat limit else length matches) /\
    (truncated = false -> dropped = []).
Proof.
  intros Hsorts Hwalk. unfold fsext.GlobWithDoubleStar. cbv zeta.
  rewrite Hwalk.
  destruct (Hsorts matches) as [Hperm Hsorted].
  set (sorted := sort.Slice fsext.newer matches) in *.
  assert (Hlen : length sorted = length matches)
    by (apply Permutation_length, Hperm).
  apply (StronglySorted_weaken _
           (fun a b => (fsext.ModTime b <= fsext.ModTime a)%Z))
    in Hsorted; [| intros a b; apply newer_false].
  destruct (Z.ltb_spec 0 limit) as [Hpos | Hnonpos]; cbn [andb].
  - destruct (Z.ltb_spec limit (Z.of_nat (length sorted))) as [Hmore | Hfew].
    + exists (take (Z.to_nat limit) sorted), (drop (Z.to_nat limit) sorted),
        true.
      rewrite take_drop.
      rewrite <- (take_drop (Z.to_nat limit) sorted) in Hsorted.
      apply StronglySorted_app in Hsorted as (Hcross & Hkept & _).
      repeat split; try assumption; try lia; try discriminate.
      * intros a b Ha Hb. apply Hcross; apply list_elem_of_In; assumption.
      * rewrite length_take. lia.
    + exists sorted, [], false. rewrite app_nil_r.
      repeat split; try assumption; try discriminate; try lia.
      intros a b _ [].
  - exists sorted, [], false. rewrite app_nil_r.
    repeat split; try assumption; try discriminate; try lia.
    intros a b _ [].
Qed.

Implicit Types (walker : @fsext.FastGlobWalker G).

(** X25: one call of the walk function leaves the collected matches as they
    are or adds the visited path with its modification time, and it adds it
    only for an entry without error that is no directory, is not skipped,
    matches the pattern and gives its file info; it prunes a directory
    exactly when the directory is skipped, and asks to stop only under a
    positive limit. *)
Theorem visit_step walker pattern searchPath limit path d err matches :
  let r := fsext.visit walker pattern searchPath limit path d err matches in
  let relPath :=
    match filepath.Rel searchPath path with
    | inl relPath => relPath
    | inr _ => path
    end in
  (fst r = matches \/
   exists info,
     fst r = matches ++ [{| fsext.Path := path;
                            fsext.ModTime := os.ModTime info |}] /\
     err = None /\ fastwalk.IsDir d = false /\
     fsext.ShouldSkip walker path = false /\
     doublestar.Match pattern relPath = (true, None) /\
     fastwalk.Info d = inl info) /\
  (snd r = filepath.SkipDir <->
   err = None /\ fastwalk.IsDir d = true /\
   fsext.ShouldSkip walker path = true) /\
  (snd r = filepath.SkipAll -> (0 < limit)%Z).
Proof.
  cbv zeta. unfold fsext.visit.
  destruct err as [e |]; cbn [fst snd].
  { split; [left; reflexivity |]. split; [| discriminate].
    split; [discriminate | intros (Herr & _); discriminate]. }
  destruct (fastwalk.IsDir d) eqn:Hdir.
  { destruct (fsext.ShouldSkip walker path) eqn:Hskip; cbn [fst snd];
      (split; [left; reflexivity |]); (split; [| discriminate]).
    - split; [intros _; repeat split; reflexivity | reflexivity].
    - split; [discriminate | intros (_ & _ & Hfalse); discriminate]. }
  destruct (fsext.ShouldSkip walker path) eqn:Hskip; cbn [fst snd].
  { split; [left; reflexivity |]. split; [| discriminate].
    split; [discriminate | intros (_ & Hfalse & _); discriminate]. }
  destruct (doublestar.Match pattern _) as [matched merr] eqn:Hmatch.
  destruct merr as [merr |]; cbn [is_Some_bool orb].
  { cbn [fst snd]. split; [left; reflexivity |]. split; [| discriminate].
    split; [discriminate | intros (_ & Hfalse & _); discriminate]. }
  destruct matched; cbn [negb].
  2: { cbn [fst snd]. split; [left; reflexivity |]. split; [| discriminate].
       split; [discriminate | intros (_ & Hfalse & _); discriminate]. }
  destruct (fastwalk.Info d) as [info | ierr] eqn:Hinfo.
  2: { cbn [fst snd]. split; [left; reflexivity |]. split; [| discriminate].
       split; [discriminate | intros (_ & Hfalse & _); discriminate]. }
  destruct (Z.ltb_spec 0 limit) as [Hpos | Hnonpos]; cbn [andb].
  - destruct (Z.leb_spec (int_wrap (limit * 2))
                (Z.of_nat (length (matches ++ [{| fsext.Path := path;
                                                  fsext.ModTime :=
                                                    os.ModTime info |}]))));
      cbn [fst snd];
      (split; [right; exists info; repeat split; reflexivity |]);
      (split; [| intros _; exact Hpos]);
      (split; [discriminate | intros (_ & Hfalse & _); discriminate]).
  - cbn [fst snd].
    split; [right; exists info; repeat split; reflexivity |].
    split; [| discriminate].
    split; [discriminate | intros (_ & Hfalse & _); discriminate].
Qed.

(** X26: under a limit between 1 and 2^62, a call of the walk function that
    starts below twice the limit ends at most at twice the limit, and asks
    the walk to stop exactly when it has reached it. *)
Theorem visit_stops_at_twice_limit walker pattern searchPath limit path d err
    matches :
  (0 < limit < 2 ^ 62)%Z ->
  (Z.of_nat (length matches) < limit * 2)%Z ->
  let r := fsext.visit walker pattern searchPath limit path d err matches in
  (Z.of_nat (length (fst r)) <= limit * 2)%Z /\
  (snd r = filepath.SkipAll <->
   Z.of_nat (length (fst r)) = (limit * 2)%Z).
Proof.
  intros Hlimit Hbelow. cbv zeta. unfold fsext.visit.
  rewrite int_wrap_double by exact Hlimit.
  assert (Hquiet :
            forall signal, signal <> filepath.SkipAll ->
              (Z.of_nat (length matches) <= limit * 2)%Z /\
              (signal = filepath.SkipAll <->
               Z.of_nat (length matches) = (limit * 2)%Z))
    by (intros signal Hsignal; split; [lia | split; [tauto | lia]]).
  destruct err as [e |]; cbn [fst snd]; [apply Hquiet; discriminate |].
  destruct (fastwalk.IsDir d).
  { destruct (fsext.ShouldSkip walker path); cbn [fst snd];
      apply Hquiet; discriminate. }
  destruct (fsext.ShouldSkip walker path); cbn [fst snd];
    [apply Hquiet; discriminate |].
  destruct (doublestar.Match pattern _) as [matched merr].
  destruct (is_Some_bool merr || negb matched); cbn [fst snd];
    [apply Hquiet; discriminate |].
  destruct (fastwalk.Info d) as [info | ierr]; cbn [fst snd];
    [| apply Hquiet; discriminate].
  destruct (Z.ltb_spec 0 limit); [| lia]. cbn [andb].
  destruct (Z.leb_spec (limit * 2)
              (Z.of_nat (length (matches ++ [{| fsext.Path := path;
                                                fsext.ModTime :=
                                                  os.ModTime info |}]))))
    as [Hreached | Hnot]; cbn [fst snd];
    rewrite length_app in *; cbn [length] in *.
  - split; [lia |]. split; [intros _; lia | reflexivity].
  - split; [lia |]. split; [discriminate | lia].
Qed.

End Glob.


(** ** The helpers on the project of the cases *)

(** The merge sort sorts by modification time, newest first. *)
Lemma mergesort_sorts_newer :
  sort.sorts (sort.Slice (Sorter := mergesort.sorter) (A := fsext.FileInfo))
             fsext.newer.
Proof.
  intros l. cbn [sort.Slice mergesort.sorter]. unfold mergesort.Slice.
  split; [apply merge_sort_Permutation |].
  apply StronglySorted_merge_sort.
  - intros a b c. unfold fsext.newer. rewrite !Z.ltb_ge. lia.
  - intros a b. unfold fsext.newer. rewrite !Z.ltb_ge. lia.
Qed.

Lemma SkipHidden_below_ignored_witness :
  fsext.has_ignored_component (names := unixnames.names) "web/node_modules" /\
  fsext.SkipHidden (names := unixnames.names)
    "web/node_modules/lodash/index.js" = true /\
  fsext.SkipHidden (names := unixnames.names)
    "lodash/index.js/web/node_modules" = true.
Proof.
  assert (Hlisted :
            fsext.has_ignored_component (names := unixnames.names)
              "web/node_modules").
  { exists "node_modules". split; [vm_compute; auto | vm_compute; reflexivity]. }
  split; [exact Hlisted |].
  exact (SkipHidden_below_ignored (names := unixnames.names)
           "web/node_modules" "lodash/index.js" Hlisted).
Defined.

Lemma ShouldSkip_unrelated_witness :
  filepath.Rel (Paths := unixpath.paths) "/p" "pkg/.cache" =
    inr (errors_New "Rel: can't make pkg/.cache relative to /p") /\
  fsext.ShouldSkip (paths := unixpath.paths) (names := unixnames.names)
    cases.walker "pkg/.cache" = true.
Proof.
  split; [reflexivity |].
  rewrite (ShouldSkip_unrelated
             (paths := unixpath.paths) (names := unixnames.names)
             cases.walker "pkg/.cache"
             (errors_New "Rel: can't make pkg/.cache relative to /p"))
    by reflexivity.
  vm_compute; reflexivity.
Defined.

Lemma ShouldSkip_without_ignore_files_witness :
  fsext.ShouldSkip (paths := unixpath.paths) (names := unixnames.names)
    (fsext.NewFastGlobWalker (paths := unixpath.paths)
       (ign := memignore.library) scenario.disk "/w")
    "/w/tmp/c.go" = false.
Proof.
  rewrite (ShouldSkip_without_ignore_files
             (paths := unixpath.paths) (names := unixnames.names)
             (ign := memignore.library) scenario.disk "/w" "/w/tmp/c.go"
             (ErrNotExist "stat /w/.gitignore: no such file or directory")
             (ErrNotExist "stat /w/.crushignore: no such file or directory"))
    by (vm_compute; reflexivity).
  vm_compute; reflexivity.
Defined.

Lemma ShouldSkip_ignored_witness :
  fsext.SkipHidden (names := unixnames.names) "/p/tmp/c.go" = false /\
  fsext.ShouldSkip (paths := unixpath.paths) (names := unixnames.names)
    (fsext.NewFastGlobWalker (paths := unixpath.paths)
       (ign := memignore.library) cases.project "/p")
    "/p/tmp/c.go" = true.
Proof.
  split; [vm_compute; reflexivity |].
  apply (ShouldSkip_ignored
           (paths := unixpath.paths) (names := unixnames.names)
           (ign := memignore.library) cases.project "/p" "/p/tmp/c.go"
           ".gitignore" {| os.IsDir := false; os.ModTime := 2 |}
           ["tmp"] "tmp/c.go");
    first [left; reflexivity | vm_compute; reflexivity].
Defined.

Lemma DirTrim_out_of_range_witness :
  fsext.DirTrim (paths := unixpath.paths) (names := unixnames.names)
    "/home/user/src/project" 5 = Some "/home/user/src/project".
Proof.
  apply (DirTrim_out_of_range
           (paths := unixpath.paths) (names := unixnames.names)).
  right. vm_compute. discriminate.
Defined.


Lemma GlobWithDoubleStar_walk_error_witness :
  cases.glob "**/*.go" "/q" 2 =
    ([], false,
     Some (Errorf "fastwalk error"
             (ErrNotExist "stat /q: no such file or directory"))).
Proof.
  apply (GlobWithDoubleStar_walk_error
           (paths := unixpath.paths) (names := unixnames.names)
           (ign := memignore.library) (matcher := suffixglob.matcher)
           (walking := memwalk.walker) (sorter := mergesort.sorter)
           cases.project "**/*.go" "/q" 2 []).
  vm_compute; reflexivity.
Defined.

Lemma GlobWithDoubleStar_newest_first_witness :
  exists kept dropped,
    cases.glob "**/*.go" "/p" 2 = (List.map fsext.Path kept, true, None) /\
    List.map fsext.Path kept = ["/p/main.go"; "/p/pkg/b.go"] /\
    length (kept ++ dropped) = 3%nat /\
    forall a b, In a kept -> In b dropped ->
                (fsext.ModTime b <= fsext.ModTime a)%Z.
Proof.
  destruct (GlobWithDoubleStar_newest_first
              (paths := unixpath.paths) (names := unixnames.names)
              (ign := memignore.library) (matcher := suffixglob.matcher)
              (walking := memwalk.walker) (sorter := mergesort.sorter)
              cases.project "**/*.go" "/p" 2
              [ {| fsext.Path := "/p/main.go"; fsext.ModTime := 30 |};
                {| fsext.Path := "/p/pkg/b.go"; fsext.ModTime := 20 |};
                {| fsext.Path := "/p/pkg/a.go"; fsext.ModTime := 10 |} ]
              mergesort_sorts_newer)
    as (kept & dropped & truncated & Hglob & Hperm & _ & Hcross & _).
  - vm_compute; reflexivity.
  - assert (Hvalue :
              cases.glob "**/*.go" "/p" 2 =
                (["/p/main.go"; "/p/pkg/b.go"], true, None))
      by (vm_compute; reflexivity).
    unfold cases.glob in Hvalue. rewrite Hglob in Hvalue.
    injection Hvalue as Hpaths Htruncated. subst truncated.
    exists kept, dropped. unfold cases.glob.
    split; [exact Hglob |]. split; [exact Hpaths |].
    split; [| exact Hcross].
    apply Permutation_length in Hperm. exact Hperm.
Defined.

Lemma visit_stops_at_twice_limit_witness :
  let seen := [ {| fsext.Path := "/p/pkg/b.go"; fsext.ModTime := 20 |} ] in
  let d := memwalk.entry (memfs.RegularFile "package main" 30) in
  cases.visit 1 "/p/main.go" d None seen =
    (seen ++ [ {| fsext.Path := "/p/main.go"; fsext.ModTime := 30 |} ],
     filepath.SkipAll).
Proof.
  intros seen d.
  destruct (visit_stops_at_twice_limit
              (paths := unixpath.paths) (names := unixnames.names)
              (ign := memignore.library) (matcher := suffixglob.matcher)
              cases.walker "**/*.go" "/p" 1 "/p/main.go" d None seen)
    as [_ [_ Hstop]].
  - lia.
  - vm_compute; reflexivity.
  - fold (cases.visit 1) in Hstop.
    rewrite (surjective_pairing (cases.visit 1 "/p/main.go" d None seen)).
    rewrite Hstop by (vm_compute; reflexivity).
    f_equal.
Defined.

End FsextSpec.

(** * The handlers of [internal/lsp] *)

Module LspSpec.

Section Handlers.
Context {O W E D FS S : Type} {codec : @lsp.Codec O W E D FS}.

Implicit Types (env : @lsp.Env W S).

(** The loop keeps the handler, and without a handler it keeps the
    application. *)
Lemma registrations_loop_handler regs env :
  lsp.fileWatchHandler (lsp.registrations_loop regs env) =
  lsp.fileWatchHandler env.
Proof.
  revert env. induction regs as [| reg regs IH]; intros env; [reflexivity |].
  cbn [lsp.registrations_loop].
  destruct (String.eqb _ _); [| apply IH].
  destruct (lsp.marshal_RegisterOptions _) as [json | err];
    [| rewrite IH; reflexivity].
  destruct (lsp.unmarshal_WatchedFilesOptions json) as [watchers | err];
    rewrite IH; [| reflexivity].
  unfold lsp.notifyFileWatchRegistration.
  destruct (lsp.fileWatchHandler env) eqn:Hhandler;
    cbn [lsp.fileWatchHandler lsp.with_app]; exact Hhandler.
Qed.

Lemma registrations_loop_app regs env handler :
  lsp.fileWatchHandler env = Some handler ->
  lsp.app (lsp.registrations_loop regs env) =
  fold_left (fun st '(id, watchers) => handler id watchers st)
            (lsp.watched regs) (lsp.app env).
Proof.
  revert env. induction regs as [| reg regs IH]; intros env Hhandler;
    [reflexivity |].
  unfold lsp.watched in *.
  cbn [lsp.registrations_loop omap list_omap].
  destruct (String.eqb _ _); [| apply IH, Hhandler].
  destruct (lsp.marshal_RegisterOptions _) as [json | err];
    [| rewrite IH by exact Hhandler; reflexivity].
  destruct (lsp.unmarshal_WatchedFilesOptions json) as [watchers | err];
    [| rewrite IH by exact Hhandler; reflexivity].
  cbn [fold_left]. unfold lsp.notifyFileWatchRegistration.
  rewrite Hhandler. rewrite IH by exact Hhandler. reflexivity.
Qed.

(** X27: with a handler registered and parameters that decode,
    [HandleRegisterCapability] returns no error and calls the handler once
    for each watched-files registration whose options pass through JSON, in
    the order of the registrations; a registration of another method, or
    one whose options fail, is passed over without stopping the others. *)
Theorem HandleRegisterCapability_notifies params env regs handler :
  lsp.unmarshal_RegistrationParams params = inl regs ->
  lsp.fileWatchHandler env = Some handler ->
  let r := lsp.HandleRegisterCapability params env in
  fst r = None /\
  lsp.app (snd r) =
    fold_left (fun st '(id, watchers) => handler id watchers st)
              (lsp.watched regs) (lsp.app env).
Proof.
  intros Hregs Hhandler. cbv zeta. unfold lsp.HandleRegisterCapability.
  rewrite Hregs. cbn [fst snd].
  split; [reflexivity | apply registrations_loop_app, Hhandler].
Qed.

(** X28: [HandleRegisterCapability] returns an error exactly when its
    parameters do not decode; without a registered handler, or with
    parameters that do not decode, it leaves the application as it is; it
    never changes the registered handler. *)
Theorem HandleRegisterCapability_quiet params env :
  let r := lsp.HandleRegisterCapability params env in
  (forall e, fst r = Some e <-> lsp.unmarshal_RegistrationParams params = inr e)
  /\
  (lsp.fileWatchHandler env = None \/ fst r <> None ->
   lsp.app (snd r) = lsp.app env) /\
  lsp.fileWatchHandler (snd r) = lsp.fileWatchHandler env.
Proof.
  cbv zeta. unfold lsp.HandleRegisterCapability.
  destruct (lsp.unmarshal_RegistrationParams params) as [regs | err];
    cbn [fst snd].
  - split; [intros e; split; discriminate |].
    split; [| apply registrations_loop_handler].
    intros [Hnone | Herr]; [| congruence].
    clear - Hnone. revert env Hnone.
    induction regs as [| reg regs IH]; intros env Hnone; [reflexivity |].
    cbn [lsp.registrations_loop].
    destruct (String.eqb _ _); [| apply IH, Hnone].
    destruct (lsp.marshal_RegisterOptions _) as [json | err];
      [| rewrite IH by exact Hnone; reflexivity].
    destruct (lsp.unmarshal_WatchedFilesOptions json) as [watchers | err];
      [| rewrite IH by exact Hnone; reflexivity].
    unfold lsp.notifyFileWatchRegistration. rewrite Hnone.
    apply IH, Hnone.
  - split; [intros e; split; congruence |].
    split; reflexivity.
Qed.

(** X29: [HandleApplyEdit] returns an error exactly when its parameters do
    not decode, and then neither applies an edit nor gives a result; for
    parameters that decode it gives a result whose [Applied] tells whether
    the edit went through, with the text of the failure when it did not. *)
Theorem HandleApplyEdit_result params fs logs :
  let r := lsp.HandleApplyEdit params fs logs in
  let result := fst (fst (fst r)) in
  let err := snd (fst (fst r)) in
  let fs' := snd (fst r) in
  match lsp.unmarshal_ApplyWorkspaceEditParams params with
  | inr e => result = None /\ err = Some e /\ fs' = fs /\ snd r = logs
  | inl edit =>
      err = None /\ fs' = fst (lsp.ApplyWorkspaceEdit fs edit) /\
      match snd (lsp.ApplyWorkspaceEdit fs edit) with
      | Some e =>
          result = Some {| protocol.Applied := false;
                           protocol.FailureReason := Error e |}
      | None =>
          result = Some {| protocol.Applied := true;
                           protocol.FailureReason := "" |}
      end
  end.
Proof.
  cbv zeta. unfold lsp.HandleApplyEdit.
  destruct (lsp.unmarshal_ApplyWorkspaceEditParams params) as [edit | e];
    [| repeat split; reflexivity].
  destruct (lsp.ApplyWorkspaceEdit fs edit) as [fs' [e |]];
    repeat split; reflexivity.
Qed.

Implicit Types (m : gmap string (list D)).

(** Replacing the diagnostics of a URI changes the total by the difference
    of the two lengths. *)
Lemma totalCount_insert m uri ds :
  lsp.totalCount (<[uri := ds]> m) =
  (lsp.totalCount m - Z.of_nat (length (default [] (m !! uri)))
   + Z.of_nat (length ds))%Z.
Proof.
  unfold lsp.totalCount.
  destruct (m !! uri) as [old |] eqn:Hold; cbn [from_option id].
  - rewrite <- insert_delete_eq.
    rewrite map_fold_insert_L;
      [| intros; lia | apply lookup_delete_eq].
    rewrite (map_fold_delete_L _ _ uri old m);
      [| intros; lia | exact Hold].
    lia.
  - rewrite map_fold_insert_L;
      [| intros; lia | exact Hold].
    cbn [length]. lia.
Qed.

(** X30: for parameters that decode, [HandleDiagnostics] stores the
    diagnostics under their URI, leaves every other URI as it is, and hands
    the callback, when there is one, the client's name and the number of
    diagnostics over all URIs: the number before, less the diagnostics
    replaced, plus the new ones. *)
Theorem HandleDiagnostics_total (client : @lsp.Client D S) params st logs p :
  lsp.unmarshal_PublishDiagnosticsParams params = inl p ->
  let uri := protocol.URI p in
  let r := lsp.HandleDiagnostics client params st logs in
  let client' := fst (fst r) in
  let total :=
    (lsp.totalCount (lsp.diagnostics client)
     - Z.of_nat (length (default [] (lsp.diagnostics client !! uri)))
     + Z.of_nat (length (protocol.Diagnostics p)))%Z in
  lsp.diagnostics client' !! uri = Some (protocol.Diagnostics p) /\
  (forall other, other <> uri ->
     lsp.diagnostics client' !! other = lsp.diagnostics client !! other) /\
  snd (fst r) =
    match lsp.onDiagnosticsChanged client with
    | Some callback => callback (lsp.name client) total st
    | None => st
    end /\
  snd r = logs.
Proof.
  intros Hp. cbv zeta. unfold lsp.HandleDiagnostics. rewrite Hp. cbv zeta.
  rewrite totalCount_insert.
  destruct (lsp.onDiagnosticsChanged client) as [callback |];
    cbn [fst snd lsp.diagnostics];
    (split; [apply lookup_insert_eq |]);
    (split; [intros other Hother; apply lookup_insert_ne; congruence |]);
    split; reflexivity.
Qed.

End Handlers.


(** ** The handlers on the messages of the cases *)

Lemma HandleRegisterCapability_notifies_witness :
  let r := lsp.HandleRegisterCapability "register" cases.listening in
  fst r = None /\
  lsp.app (snd r) =
    [ lspmessages.Watching "1" ["**/*.go"; "go.mod"];
      lspmessages.Watching "4" ["**/*.md"] ].
Proof.
  intros r.
  destruct (HandleRegisterCapability_notifies
              (codec := lspmessages.codec) "register" cases.listening
              [ lspmessages.registration "1" "workspace/didChangeWatchedFiles"
                  "go";
                lspmessages.registration "2" "textDocument/formatting" "go";
                lspmessages.registration "3" "workspace/didChangeWatchedFiles"
                  "broken";
                lspmessages.registration "4" "workspace/didChangeWatchedFiles"
                  "md" ]
              lspmessages.watching)
    as [Herr Happ]; [reflexivity | reflexivity |].
  split; [exact Herr |].
  subst r. rewrite Happ. vm_compute; reflexivity.
Defined.

Lemma HandleDiagnostics_total_witness :
  let r := lsp.HandleDiagnostics cases.client "publish" [] [] in
  lsp.totalCount (lsp.diagnostics cases.client) = 4 /\
  lsp.diagnostics (fst (fst r)) !! "file:///w/a.go" =
    Some ["unused variable"; "missing return"] /\
  snd (fst r) = [lspmessages.Counted "gopls" 5].
Proof.
  intros r.
  split; [vm_compute; reflexivity |].
  destruct (HandleDiagnostics_total
              (codec := lspmessages.codec) cases.client "publish" [] []
              {| protocol.URI := "file:///w/a.go";
                 protocol.Diagnostics :=
                   ["unused variable"; "missing return"] |})
    as (Hstored & _ & Hcalled & _); [reflexivity |].
  split; [exact Hstored |].
  subst r. rewrite Hcalled. vm_compute; reflexivity.
Defined.

End LspSpec.
